(** * basicserver: a CRUD service over one "users" collection

    Shallow embedding of [src/main.py].  The service is a set of FastAPI
    handlers over a MongoDB collection.  The embedding has four layers:

    - Python values: [str] (a sequence of code points), integers, [None],
      [ObjectId]; dictionaries are finite maps from field names to values;
    - the [UserModel] class: field checks, the [name] validator, the
      [PyObjectId] validator, [model_dump];
    - the collection: a list of documents with the five driver calls the
      handlers use ([insert_one], [find_one], [find().to_list],
      [update_one], [delete_one]); a document is encoded before it is
      sent, and every call that is sent is recorded in a trace, so that
      "no store access" and "one re-fetch" are statements about the
      trace;
    - the handlers of [main.py], written in a state/exception/trace monad,
      and the routes: body validation in front (422), exception mapping
      behind (HTTPException -> its status, anything else -> 500), and the
      [response_model] filter on the way out. *)

From Stdlib Require Import ZArith NArith Lia.
From stdpp Require Import gmap strings list fin_maps.

Open Scope Z_scope.

(** ** Python strings *)

(** A Python [str] is a sequence of Unicode code points. *)
Definition str := list N.

(** An ASCII literal as a [str]. *)
Definition lit (s : string) : str :=
  map (fun a => N.of_nat (Ascii.nat_of_ascii a)) (String.list_ascii_of_string s).

(** [str.isspace] on one code point: the characters that [str.strip()]
    removes when called without argument. *)
Definition isspace (c : N) : bool :=
  ((9 <=? c) && (c <=? 13) || (28 <=? c) && (c <=? 32)
   || (c =? 133) || (c =? 160) || (c =? 5760)
   || (8192 <=? c) && (c <=? 8202)
   || (c =? 8232) || (c =? 8233) || (c =? 8239) || (c =? 8287)
   || (c =? 12288))%N.

Fixpoint lstrip (s : str) : str :=
  match s with
  | [] => []
  | c :: s' => if isspace c then lstrip s' else s
  end.

Definition rstrip (s : str) : str := rev (lstrip (rev s)).

(** [v.strip()] *)
Definition strip (s : str) : str := rstrip (lstrip s).

(** ** ObjectId *)

(** A [bson.ObjectId] holds the bytes it was built from: twelve of them
    when the driver generates it or when it is read from 24 hexadecimal
    characters. *)
Definition ObjectId := list N.

Definition ObjectId_wf (o : ObjectId) : Prop :=
  length o = 12%nat ∧ Forall (fun b => (b < 256)%N) o.

Definition hexval (c : N) : option N :=
  if ((48 <=? c) && (c <=? 57))%N then Some (c - 48)%N
  else if ((97 <=? c) && (c <=? 102))%N then Some (c - 87)%N
  else if ((65 <=? c) && (c <=? 70))%N then Some (c - 55)%N
  else None.

(** ASCII whitespace, which [bytes.fromhex] skips between bytes. *)
Definition is_ascii_space (c : N) : bool :=
  ((9 <=? c) && (c <=? 13) || (c =? 32))%N.

(** [bytes.fromhex(s)]: two hexadecimal characters per byte, ASCII
    whitespace allowed before a byte and at the end; [None] is
    [ValueError]. *)
Fixpoint fromhex (s : str) : option (list N) :=
  match s with
  | [] => Some []
  | c :: s' =>
      if is_ascii_space c then fromhex s'
      else match s' with
           | [] => None
           | c' :: s'' =>
               match hexval c, hexval c' with
               | Some hi, Some lo => cons (16 * hi + lo)%N <$> fromhex s''
               | _, _ => None
               end
           end
  end.

(** [ObjectId(oid)] on a string: the string must have 24 characters and
    [bytes.fromhex] must read it; anything else raises [InvalidId] (here
    [None]). *)
Definition ObjectId_of_str (s : str) : option ObjectId :=
  if (length s =? 24)%nat then fromhex s else None.

Definition hexchar (d : N) : N := (if d <? 10 then 48 + d else 87 + d)%N.

Definition hexbyte (b : N) : str := [hexchar (b / 16)%N; hexchar (b mod 16)%N].

(** [binascii.hexlify] *)
Definition hexlify (bs : list N) : str := flat_map hexbyte bs.

(** [str(oid)]: two lower-case hexadecimal characters per byte. *)
Definition ObjectId_str (o : ObjectId) : str := hexlify o.

(** ** Values and dictionaries *)

(** The values that occur in request bodies and in stored documents of
    this service: [None] (JSON null), integers, strings and identifiers.
    Floats, booleans and nested containers are not represented. *)
Inductive value :=
  | VNone
  | VInt (z : Z)
  | VStr (s : str)
  | VOid (o : ObjectId).

#[global] Instance value_eq_dec : EqDecision value.
Proof. solve_decision. Defined.

(** A Python [dict] with string keys; also a stored document and a JSON
    object. *)
Abbreviation pydict := (gmap string value).

(** ** UserModel *)

(** pydantic converts some strings to [int] where a field is declared
    [int] ("31" becomes 31).  That conversion is not part of this
    repository: it is a parameter of the embedding, and the properties
    below hold whatever it is.  [None] is "not a valid integer". *)
Class LaxInt := lax_int : str -> option Z.

(** A conversion to run the examples with: decimal digits, with an
    optional minus sign in front. *)
Fixpoint digits_value (s : str) (acc : Z) : option Z :=
  match s with
  | [] => Some acc
  | c :: s' =>
      if ((48 <=? c) && (c <=? 57))%N
      then digits_value s' (10 * acc + Z.of_N (c - 48))
      else None
  end.

Definition decimal_int (s : str) : option Z :=
  match s with
  | [] => None
  | 45%N :: [] => None
  | 45%N :: s' => Z.opp <$> digits_value s' 0
  | _ => digits_value s 0
  end.

Definition decimal_lax : LaxInt := decimal_int.

Section Service.

Context {lax : LaxInt}.

(** [UserModel.name_must_not_be_empty]: raises [ValueError] ([None]) on an
    empty or all-whitespace name, returns [v] otherwise. *)
Definition name_must_not_be_empty (v : str) : option str :=
  if bool_decide (v = []) || bool_decide (strip v = []) then None else Some v.

(** [ObjectId.is_valid(v)] *)
Definition ObjectId_is_valid (v : value) : bool :=
  match v with
  | VStr s => bool_decide (is_Some (ObjectId_of_str s))
  | VOid _ => true
  | _ => false
  end.

(** [ObjectId(v)] *)
Definition ObjectId_new (v : value) : option ObjectId :=
  match v with
  | VStr s => ObjectId_of_str s
  | VOid o => Some o
  | _ => None
  end.

(** [PyObjectId.validate] *)
Definition PyObjectId_validate (v : value) : option ObjectId :=
  if ObjectId_is_valid v then ObjectId_new v else None.

(** An instance of [UserModel]; [um_fields_set] is pydantic's
    [model_fields_set], the names of the fields the input gave. *)
Record UserModel := {
  um_id : option ObjectId;
  um_name : str;
  um_age : Z;
  um_fields_set : gset string
}.

(** The input value of the field [id]: looked up under its alias ["_id"],
    then ([validate_by_name]) under its name. *)
Definition input_id (d : pydict) : option value :=
  match d !! "_id" with
  | Some v => Some v
  | None => d !! "id"
  end.

(** [id: Optional[PyObjectId] = Field(alias="_id", default=None)] *)
Definition validate_id (d : pydict) : option (option ObjectId) :=
  match input_id d with
  | None => Some None
  | Some VNone => Some None
  | Some v => match PyObjectId_validate v with
              | Some o => Some (Some o)
              | None => None
              end
  end.

(** [name: str] with its field validator *)
Definition validate_name (d : pydict) : option str :=
  match d !! "name" with
  | Some (VStr s) => name_must_not_be_empty s
  | _ => None
  end.

(** [age: int].  An integer is taken as it is, a string goes through
    pydantic's conversion, [None] and identifiers are refused. *)
Definition validate_age (d : pydict) : option Z :=
  match d !! "age" with
  | Some (VInt z) => Some z
  | Some (VStr s) => lax_int s
  | _ => None
  end.

(** Validation of a dictionary against [UserModel]; [None] is pydantic's
    [ValidationError]. *)
Definition UserModel_validate (d : pydict) : option UserModel :=
  match validate_id d, validate_name d, validate_age d with
  | Some i, Some n, Some a =>
      Some {| um_id := i; um_name := n; um_age := a;
              um_fields_set :=
                (if input_id d is Some _ then {["id"]} else ∅) ∪ {["name"; "age"]} |}
  | _, _, _ => None
  end.

Definition oid_value (i : option ObjectId) : value :=
  match i with Some o => VOid o | None => VNone end.

(** [user.model_dump(by_alias=True)] *)
Definition model_dump_by_alias (u : UserModel) : pydict :=
  {[ "_id" := oid_value (um_id u); "name" := VStr (um_name u);
     "age" := VInt (um_age u) ]}.

(** [user.model_dump(exclude_unset=True)] *)
Definition model_dump_exclude_unset (u : UserModel) : pydict :=
  filter (fun kv => kv.1 ∈ um_fields_set u)
    ({[ "id" := oid_value (um_id u); "name" := VStr (um_name u);
        "age" := VInt (um_age u) ]} : pydict).

(** The JSON form of an instance, as [response_model] emits it: by alias,
    the identifier through [json_encoders] ([str]). *)
Definition model_dump_json (u : UserModel) : pydict :=
  {[ "_id" := match um_id u with
              | Some o => VStr (ObjectId_str o)
              | None => VNone
              end;
     "name" := VStr (um_name u); "age" := VInt (um_age u) ]}.


(** ** The collection and the driver calls *)

(** The ["users"] collection: its documents, in the order the store
    lists them. *)
Definition collection := list pydict.

(** One call to the document store. *)
Inductive store_op :=
  | OpInsertOne (d : pydict)
  | OpFindOne (q : value)
  | OpFind
  | OpUpdateOne (q : value) (upd : pydict)
  | OpDeleteOne (q : value).

Inductive exn :=
  | InvalidId (oid : str)
  | DuplicateKeyError
  | OverflowError
  | UnicodeEncodeError
  | HTTPException (status_code : Z) (detail : str).

Inductive outcome (A : Type) :=
  | Ok (a : A)
  | Raise (e : exn).
#[global] Arguments Ok {A} a.
#[global] Arguments Raise {A} e.

(** A handler computation: it reads and changes the collection, returns
    or raises, and leaves the list of store calls it made. *)
Definition M (A : Type) : Type :=
  collection -> outcome A * collection * list store_op.

Definition ret {A} (a : A) : M A := fun c => (Ok a, c, []).

Definition raise {A} (e : exn) : M A := fun c => (Raise e, c, []).

Definition bind {A B} (m : M A) (f : A -> M B) : M B :=
  fun c =>
    match m c with
    | (Ok a, c1, t1) =>
        match f a c1 with
        | (r, c2, t2) => (r, c2, t1 ++ t2)
        end
    | (Raise e, c1, t1) => (Raise e, c1, t1)
    end.

Notation "'do' x <- m ; k" := (bind m (fun x => k))
  (at level 10, x name, m at level 100, k at level 200).
Notation "'run' m ; k" := (bind m (fun _ => k))
  (at level 10, m at level 100, k at level 200).

(** The filter [{"_id": q}] on one document. *)
Definition matches (q : value) (d : pydict) : bool :=
  bool_decide (d !! "_id" = Some q).

Fixpoint update_first (q : value) (upd : pydict) (c : collection) : collection :=
  match c with
  | [] => []
  | d :: c' => if matches q d then (upd ∪ d) :: c'
               else d :: update_first q upd c'
  end.

Fixpoint delete_first (q : value) (c : collection) : collection :=
  match c with
  | [] => []
  | d :: c' => if matches q d then c' else d :: delete_first q c'
  end.

(** What the driver can encode: a string must be encodable as UTF-8
    (Unicode code points, none of them a surrogate), an integer must fit
    in 64 bits. *)
Definition utf8_encodable (s : str) : bool :=
  forallb (fun c => (c <? 55296) || (57343 <? c) && (c <=? 1114111))%N s.

Definition int64 (z : Z) : bool := (- 2 ^ 63 <=? z) && (z <? 2 ^ 63).

Definition str_ok (v : value) : bool :=
  match v with VStr s => utf8_encodable s | _ => true end.

Definition int_ok (v : value) : bool :=
  match v with VInt z => int64 z | _ => true end.

(** The exception the driver raises when it encodes a document, if any.
    In the dictionaries of this service the only string comes before the
    only integer. *)
Definition bson_error (d : pydict) : option exn :=
  if bool_decide (map_Forall (fun _ v => str_ok v = true) d)
  then if bool_decide (map_Forall (fun _ v => int_ok v = true) d)
       then None
       else Some OverflowError
  else Some UnicodeEncodeError.

(** [insert_one(doc)]: a document without ["_id"] gets the identifier
    [gen] that the driver generates for it; the document is encoded,
    which may raise before anything is sent; the store refuses a
    document whose ["_id"] it already holds.  Returns [inserted_id]. *)
Definition insert_one (gen : ObjectId) (doc : pydict) : M value :=
  fun c =>
    let doc' := match doc !! "_id" with
                | Some _ => doc
                | None => <["_id" := VOid gen]> doc
                end in
    let i := default (VOid gen) (doc' !! "_id") in
    match bson_error doc' with
    | Some e => (Raise e, c, [])
    | None =>
        match List.find (matches i) c with
        | Some _ => (Raise DuplicateKeyError, c, [OpInsertOne doc'])
        | None => (Ok i, c ++ [doc'], [OpInsertOne doc'])
        end
    end.

(** [find_one({"_id": q})] *)
Definition find_one (q : value) : M (option pydict) :=
  fun c => (Ok (List.find (matches q) c), c, [OpFindOne q]).

(** [find().to_list(n)] *)
Definition find_to_list (n : nat) : M (list pydict) :=
  fun c => (Ok (take n c), c, [OpFind]).

(** [update_one({"_id": q}, {"$set": upd})]; the update is encoded, which
    may raise before anything is sent. *)
Definition update_one (q : value) (upd : pydict) : M unit :=
  fun c =>
    match bson_error upd with
    | Some e => (Raise e, c, [])
    | None => (Ok tt, update_first q upd c, [OpUpdateOne q upd])
    end.

(** [delete_one({"_id": q})]; returns [deleted_count]. *)
Definition delete_one (q : value) : M nat :=
  fun c =>
    (Ok (if List.find (matches q) c is Some _ then 1%nat else 0%nat),
     delete_first q c, [OpDeleteOne q]).

(** ** The handlers of main.py *)

(** [ObjectId(id)] on a path parameter. *)
Definition ObjectId_ (id : str) : M value :=
  match ObjectId_of_str id with
  | Some o => ret (VOid o)
  | None => raise (InvalidId id)
  end.

(** [f"User with ID {id} not found"] *)
Definition not_found_detail (id : str) : str :=
  lit "User with ID " ++ id ++ lit " not found".

Definition not_found {A} (id : str) : M A :=
  raise (HTTPException 404 (not_found_detail id)).

(** Truth value of a [find_one] result: [None] and the empty dictionary
    are false. *)
Definition truthy (r : option pydict) : bool :=
  match r with
  | Some d => bool_decide (d ≠ ∅)
  | None => false
  end.

(** The dictionary [create_user] inserts. *)
Definition user_dict (user : UserModel) : pydict :=
  filter (fun kv => kv.1 ≠ "_id" ∨ kv.2 ≠ VNone) (model_dump_by_alias user).

Definition create_user (gen : ObjectId) (user : UserModel) : M (option pydict) :=
  do new_user <- insert_one gen (user_dict user);
  find_one new_user.

Definition list_users : M (list pydict) := find_to_list 1000.

Definition get_user (id : str) : M pydict :=
  do q <- ObjectId_ id;
  do user <- find_one q;
  if truthy user then ret (default ∅ user) else not_found id.

(** The dictionary [update_user] passes to [$set]. *)
Definition update_data (user : UserModel) : pydict :=
  filter (fun kv => kv.1 ≠ "id" ∧ kv.2 ≠ VNone) (model_dump_exclude_unset user).

Definition update_user (id : str) (user : UserModel) : M pydict :=
  run (if bool_decide (update_data user ≠ ∅)
       then do q <- ObjectId_ id; update_one q (update_data user)
       else ret tt);
  do q <- ObjectId_ id;
  do user <- find_one q;
  if truthy user then ret (default ∅ user) else not_found id.

Definition delete_user (id : str) : M unit :=
  do q <- ObjectId_ id;
  do n <- delete_one q;
  if bool_decide (n ≠ 0%nat) then ret tt else not_found id.

(** ** The routes *)

Inductive content :=
  | JUser (d : pydict)
  | JUsers (l : list pydict)
  | JDetail (s : str)
  | JValidationError
  | JInternalServerError
  | JEmpty.

Record response := { status_code : Z; body : content }.

Definition answer A : Type := A * collection * list store_op.

(** [response_model=UserModel] on a handler's return value: the value is
    validated against the model and emitted in JSON form. *)
Definition serialize_user (d : pydict) : option pydict :=
  model_dump_json <$> UserModel_validate d.

(** [response_model=List[UserModel]] *)
Definition serialize_users (l : list pydict) : option (list pydict) :=
  mapM serialize_user l.

(** What the framework answers for a handler run: the declared status
    with the filtered return value; an [HTTPException] with its own
    status; any other exception, and a return value the response model
    refuses, with 500. *)
Definition respond {A} (code : Z) (ser : A -> option content)
    (r : outcome A * collection * list store_op) : answer response :=
  match r with
  | (Ok a, c, t) =>
      match ser a with
      | Some b => ({| status_code := code; body := b |}, c, t)
      | None => ({| status_code := 500; body := JInternalServerError |}, c, t)
      end
  | (Raise (HTTPException s d), c, t) =>
      ({| status_code := s; body := JDetail d |}, c, t)
  | (Raise _, c, t) =>
      ({| status_code := 500; body := JInternalServerError |}, c, t)
  end.

(** A route with a [UserModel] body: a body the model refuses is answered
    with 422 and the handler does not run. *)
Definition with_body {A} (payload : pydict) (h : UserModel -> collection -> answer A)
    (invalid : A) (c : collection) : answer A :=
  match UserModel_validate payload with
  | Some user => h user c
  | None => (invalid, c, [])
  end.

Definition unprocessable : response :=
  {| status_code := 422; body := JValidationError |}.

(** POST /users/ *)
Definition POST_users (gen : ObjectId) (payload : pydict) (c : collection)
    : answer response :=
  with_body payload
    (fun user c =>
       respond 201 (fun r => JUser <$> (r ≫= serialize_user))
         (create_user gen user c))
    unprocessable c.

(** GET /users/ *)
Definition GET_users (c : collection) : answer response :=
  respond 200 (fun l => JUsers <$> serialize_users l) (list_users c).

(** GET /users/{id} *)
Definition GET_user (id : str) (c : collection) : answer response :=
  respond 200 (fun d => JUser <$> serialize_user d) (get_user id c).

(** PUT /users/{id} *)
Definition PUT_user (id : str) (payload : pydict) (c : collection)
    : answer response :=
  with_body payload
    (fun user c =>
       respond 200 (fun d => JUser <$> serialize_user d) (update_user id user c))
    unprocessable c.

(** DELETE /users/{id} *)
Definition DELETE_user (id : str) (c : collection) : answer response :=
  respond 204 (fun _ => Some JEmpty) (delete_user id c).

(** ** Sample data *)

Definition ada_oid : ObjectId :=
  [80; 127; 31; 119; 188; 248; 108; 215; 153; 67; 144; 17]%N.
Definition ada_id : str := lit "507f1f77bcf86cd799439011".
Definition ada : pydict := {[ "name" := VStr (lit "Ada"); "age" := VInt 30 ]}.
Definition ada_doc : pydict := <["_id" := VOid ada_oid]> ada.

Definition bob_oid : ObjectId := [0; 0; 0; 0; 0; 0; 0; 0; 0; 0; 0; 1]%N.

(** A POST body that names Ada's identifier as its own. *)
Definition bob_with_ada_id : pydict :=
  {[ "_id" := VStr ada_id; "name" := VStr (lit "Bob"); "age" := VInt 5 ]}.

(** A body whose age does not fit in 64 bits, and a name that is a lone
    surrogate between two spaces. *)
Definition ada_too_old : pydict :=
  {[ "name" := VStr (lit "Ada"); "age" := VInt (2 ^ 63) ]}.
Definition padded_surrogate : str := [32; 55296; 32]%N.

(** ** Predicates used in the statements *)

(** Empty or all whitespace. *)
Definition blank (s : str) : bool := forallb isspace s.

(** The store keeps ["_id"] unique within a collection. *)
Definition unique_ids (c : collection) : Prop :=
  NoDup (omap (fun d : pydict => d !! "_id") c).

(** A document that [response_model=UserModel] accepts. *)
Definition user_document (d : pydict) : Prop := is_Some (UserModel_validate d).

(** What holds of the collection between requests: identifiers are
    unique, and every document is a user document. *)
Definition store_ok (c : collection) : Prop :=
  unique_ids c ∧ Forall user_document c.

(** The trace of an answer, and its response. *)
Definition trace {A} (r : answer A) : list store_op := r.2.
Definition reply {A} (r : answer A) : A := r.1.1.
Definition store_after {A} (r : answer A) : collection := r.1.2.

(** A user record in JSON form. *)
Definition record (i : value) (n : str) (a : Z) : pydict :=
  {[ "_id" := i; "name" := VStr n; "age" := VInt a ]}.

(** The outcome of [raise HTTPException(status_code=404, ...)]. *)
Definition http_404 {A} (id : str) : outcome A :=
  Raise (HTTPException 404 (not_found_detail id)).

(** The document [create_user] hands to the store, once the driver has
    completed it. *)
Definition new_doc (gen : ObjectId) (u : UserModel) : pydict :=
  record (VOid (default gen (um_id u))) (um_name u) (um_age u).

(** The name and age of an instance can be encoded by the driver. *)
Definition storable (u : UserModel) : bool :=
  utf8_encodable (um_name u) && int64 (um_age u).

(** The exception the driver raises for an instance it cannot encode. *)
Definition encode_exn (u : UserModel) : exn :=
  if utf8_encodable (um_name u) then OverflowError else UnicodeEncodeError.

Definition not_found_response (id : str) : response :=
  {| status_code := 404; body := JDetail (not_found_detail id) |}.

Definition server_error : response :=
  {| status_code := 500; body := JInternalServerError |}.

Definition user_response (code : Z) (i : ObjectId) (n : str) (a : Z) : response :=
  {| status_code := code; body := JUser (record (VStr (ObjectId_str i)) n a) |}.

(** ** The application *)

(** [root], the handler of GET /: it returns [{"success": True}], kept
    here as the value under ["success"], and makes no store call. *)
Definition root : M bool := ret true.

(** A request to one of the six routes of [app]. *)
Inductive request :=
  | ReqRoot
  | ReqCreate (payload : pydict)
  | ReqList
  | ReqGet (id : str)
  | ReqUpdate (id : str) (payload : pydict)
  | ReqDelete (id : str).

Inductive app_reply :=
  | RootReply (status : Z) (success : bool)
  | UserReply (r : response).

Definition status_of (r : app_reply) : Z :=
  match r with
  | RootReply s _ => s
  | UserReply r => status_code r
  end.

(** GET / *)
Definition GET_root (c : collection) : answer app_reply :=
  match root c with
  | (Ok b, c', t) => (RootReply 200 b, c', t)
  | (Raise _, c', t) => (UserReply server_error, c', t)
  end.

Definition routed (r : answer response) : answer app_reply :=
  (UserReply r.1.1, r.1.2, r.2).

(** The route table of [app]; [gen] is the identifier the driver would
    generate during this request. *)
Definition serve (gen : ObjectId) (req : request) (c : collection)
    : answer app_reply :=
  match req with
  | ReqRoot => GET_root c
  | ReqCreate payload => routed (POST_users gen payload c)
  | ReqList => routed (GET_users c)
  | ReqGet id => routed (GET_user id c)
  | ReqUpdate id payload => routed (PUT_user id payload c)
  | ReqDelete id => routed (DELETE_user id c)
  end.

(** The collection after a sequence of requests, served one after the
    other. *)
Fixpoint serve_all (reqs : list (ObjectId * request)) (c : collection)
    : collection :=
  match reqs with
  | [] => c
  | (gen, req) :: reqs' => serve_all reqs' (store_after (serve gen req c))
  end.

(** Store calls that write, and store calls that read. *)
Definition is_write (op : store_op) : bool :=
  match op with
  | OpInsertOne _ | OpUpdateOne _ _ | OpDeleteOne _ => true
  | OpFindOne _ | OpFind => false
  end.

Definition is_read (op : store_op) : bool := negb (is_write op).

(** * Properties *)

(** ** Strings *)

(** ** Strings *)

Lemma lstrip_nil (s : str) : lstrip s = [] <-> blank s = true.
Proof.
  induction s as [|c s IH]; simpl; [tauto|].
  destruct (isspace c); simpl; [exact IH|]. split; discriminate.
Qed.

Lemma lstrip_head (s : str) c s' : lstrip s = c :: s' -> isspace c = false.
Proof.
  induction s as [|x s IH]; simpl; [discriminate|].
  destruct (isspace x) eqn:E; [exact IH|]. intros [= -> _]. exact E.
Qed.

Lemma blank_rev (s : str) : blank (rev s) = blank s.
Proof.
  unfold blank. induction s as [|c s IH]; simpl; [reflexivity|].
  rewrite forallb_app, IH. simpl. rewrite andb_true_r. apply andb_comm.
Qed.

Lemma strip_nil (s : str) : strip s = [] <-> blank s = true.
Proof.
  unfold strip, rstrip. split.
  - intros H. apply (f_equal (@rev N)) in H. rewrite rev_involutive in H.
    simpl in H. apply lstrip_nil in H. rewrite blank_rev in H.
    destruct (lstrip s) as [|c s'] eqn:E; [by apply lstrip_nil|].
    apply lstrip_head in E. simpl in H. rewrite E in H. discriminate.
  - intros H. apply lstrip_nil in H. rewrite H. reflexivity.
Qed.

Lemma name_must_not_be_empty_spec (v : str) :
  name_must_not_be_empty v = if blank v then None else Some v.
Proof.
  unfold name_must_not_be_empty.
  destruct (blank v) eqn:B.
  - apply strip_nil in B. repeat case_bool_decide; done.
  - assert (strip v <> []) as Hs.
    { intros H. apply strip_nil in H. congruence. }
    assert (v <> []) as Hv by (intros ->; discriminate).
    repeat case_bool_decide; done.
Qed.

(** ** Identifiers *)

(** ** Identifiers *)

Lemma hexval_hexchar (d : N) : (d < 16)%N -> hexval (hexchar d) = Some d.
Proof.
  intros H. unfold hexchar, hexval.
  destruct (N.ltb_spec d 10).
  - replace ((48 <=? 48 + d) && (48 + d <=? 57))%N with true; [f_equal; lia|].
    symmetry. apply andb_true_iff. split; apply N.leb_le; lia.
  - replace ((48 <=? 87 + d) && (87 + d <=? 57))%N with false.
    2:{ symmetry. apply andb_false_iff. right. apply N.leb_gt. lia. }
    replace ((97 <=? 87 + d) && (87 + d <=? 102))%N with true; [f_equal; lia|].
    symmetry. apply andb_true_iff. split; apply N.leb_le; lia.
Qed.

Lemma is_ascii_space_hexchar (d : N) :
  (d < 16)%N -> is_ascii_space (hexchar d) = false.
Proof.
  intros H. unfold hexchar, is_ascii_space.
  destruct (N.ltb_spec d 10).
  - replace (48 + d <=? 13)%N with false by (symmetry; apply N.leb_gt; lia).
    replace (48 + d =? 32)%N with false by (symmetry; apply N.eqb_neq; lia).
    by rewrite andb_false_r.
  - replace (87 + d <=? 13)%N with false by (symmetry; apply N.leb_gt; lia).
    replace (87 + d =? 32)%N with false by (symmetry; apply N.eqb_neq; lia).
    by rewrite andb_false_r.
Qed.

Lemma fromhex_hexbyte (b : N) (s : str) :
  (b < 256)%N -> fromhex (hexbyte b ++ s) = cons b <$> fromhex s.
Proof.
  intros H. unfold hexbyte. cbn [app fromhex].
  assert (b / 16 < 16)%N as Hhi by (apply N.Div0.div_lt_upper_bound; lia).
  assert (b mod 16 < 16)%N as Hlo by (apply N.mod_lt; lia).
  rewrite (is_ascii_space_hexchar _ Hhi).
  rewrite (hexval_hexchar _ Hhi), (hexval_hexchar _ Hlo).
  replace (16 * (b / 16) + b mod 16)%N with b; [reflexivity|].
  pose proof (N.div_mod b 16). lia.
Qed.

Lemma fromhex_hexlify (o : list N) :
  Forall (fun b => (b < 256)%N) o -> fromhex (hexlify o) = Some o.
Proof.
  induction 1 as [|b o Hb Ho IH]; [reflexivity|].
  unfold hexlify. cbn [flat_map]. fold (hexlify o).
  by rewrite (fromhex_hexbyte b _ Hb), IH.
Qed.

Lemma length_hexlify (o : list N) : length (hexlify o) = (2 * length o)%nat.
Proof.
  induction o as [|b o IH]; [reflexivity|].
  unfold hexlify. cbn [flat_map]. fold (hexlify o).
  rewrite length_app, IH. simpl. lia.
Qed.

(** [ObjectId(str(o)) == o] for a 12-byte identifier. *)
Lemma ObjectId_of_str_str (o : ObjectId) :
  ObjectId_wf o -> ObjectId_of_str (ObjectId_str o) = Some o.
Proof.
  intros [Hl Hb]. unfold ObjectId_of_str, ObjectId_str.
  rewrite length_hexlify, Hl. simpl (2 * 12 =? 24)%nat. cbv iota.
  by apply fromhex_hexlify.
Qed.

(** ** The model *)

Ltac key_cases k :=
  destruct (decide (k = "_id")) as [->|?];
  [|destruct (decide (k = "name")) as [->|?];
    [|destruct (decide (k = "age")) as [->|?];
      [|destruct (decide (k = "id")) as [->|?]]]].

Lemma user_dict_lookup u k :
  user_dict u !! k =
    if decide (k = "_id") then VOid <$> um_id u
    else if decide (k = "name") then Some (VStr (um_name u))
    else if decide (k = "age") then Some (VInt (um_age u))
    else None.
Proof.
  unfold user_dict, model_dump_by_alias. rewrite map_lookup_filter.
  key_cases k; simplify_map_eq; destruct (um_id u); simpl;
    repeat case_guard; simpl; naive_solver.
Qed.

Lemma update_data_lookup u k :
  update_data u !! k =
    if decide (k = "name")
    then (if decide ("name" ∈ um_fields_set u) then Some (VStr (um_name u)) else None)
    else if decide (k = "age")
    then (if decide ("age" ∈ um_fields_set u) then Some (VInt (um_age u)) else None)
    else None.
Proof.
  unfold update_data, model_dump_exclude_unset. rewrite !map_lookup_filter.
  key_cases k; simplify_map_eq; repeat case_decide; simpl;
    repeat (case_guard; simpl); naive_solver.
Qed.

Lemma update_data_no_id u : update_data u !! "_id" = None.
Proof. by rewrite update_data_lookup. Qed.

Lemma update_data_empty u :
  update_data u = ∅ <->
  ("name" ∉ um_fields_set u) ∧ ("age" ∉ um_fields_set u).
Proof.
  rewrite map_empty. split.
  - intros H. split; intros Hin.
    + specialize (H "name"). rewrite update_data_lookup in H.
      by rewrite !decide_True in H.
    + specialize (H "age"). rewrite update_data_lookup in H.
      rewrite decide_False, !decide_True in H; done.
  - intros [Hn Ha] k. rewrite update_data_lookup.
    repeat case_decide; done.
Qed.

Lemma validate_name_Some d n :
  validate_name d = Some n <-> d !! "name" = Some (VStr n) ∧ blank n = false.
Proof.
  unfold validate_name. split.
  - destruct (d !! "name") as [[| |s|]|]; try discriminate.
    rewrite name_must_not_be_empty_spec.
    destruct (blank s) eqn:B; [discriminate|]. by intros [= ->].
  - intros [-> B]. rewrite name_must_not_be_empty_spec. by rewrite B.
Qed.

Lemma validate_age_int d a :
  d !! "age" = Some (VInt a) -> validate_age d = Some a.
Proof. intros H. unfold validate_age. by rewrite H. Qed.

Lemma validate_age_given d a :
  validate_age d = Some a ->
  is_Some (d !! "age") ∧ d !! "age" <> Some VNone.
Proof.
  unfold validate_age.
  destruct (d !! "age") as [[]|]; try discriminate;
    intros _; (split; [eexists; reflexivity|discriminate]).
Qed.

Lemma UserModel_validate_Some d u :
  UserModel_validate d = Some u <->
  validate_id d = Some (um_id u) ∧ validate_name d = Some (um_name u) ∧
  validate_age d = Some (um_age u) ∧
  um_fields_set u =
    (if input_id d is Some _ then {["id"]} else ∅) ∪ {["name"; "age"]}.
Proof.
  unfold UserModel_validate. split.
  - destruct (validate_id d), (validate_name d), (validate_age d);
      try discriminate. by intros [= <-].
  - destruct u as [i n a fs]; simpl. by intros (-> & -> & -> & ->).
Qed.

Lemma validated_fields_set d u :
  UserModel_validate d = Some u ->
  "name" ∈ um_fields_set u ∧ "age" ∈ um_fields_set u.
Proof.
  intros (_ & _ & _ & ->)%UserModel_validate_Some. set_solver.
Qed.

Lemma validated_update_data d u :
  UserModel_validate d = Some u ->
  update_data u = {[ "name" := VStr (um_name u); "age" := VInt (um_age u) ]}.
Proof.
  intros [Hn Ha]%validated_fields_set. apply map_eq. intros k.
  rewrite update_data_lookup.
  key_cases k; simplify_map_eq; repeat case_decide; done.
Qed.

Lemma validate_id_of_doc d o :
  d !! "_id" = Some (VOid o) -> validate_id d = Some (Some o).
Proof. intros H. unfold validate_id, input_id. by rewrite H. Qed.

Lemma serialize_user_doc d o n a :
  d !! "_id" = Some (VOid o) -> d !! "name" = Some (VStr n) ->
  blank n = false -> d !! "age" = Some (VInt a) ->
  serialize_user d = Some (record (VStr (ObjectId_str o)) n a).
Proof.
  intros Hi Hn B Ha. unfold serialize_user.
  assert (UserModel_validate d = Some
            {| um_id := Some o; um_name := n; um_age := a;
               um_fields_set := {["id"]} ∪ {["name"; "age"]} |}) as ->.
  { apply UserModel_validate_Some; simpl.
    rewrite (validate_id_of_doc d o Hi).
    repeat split; [by apply validate_name_Some|by apply validate_age_int|].
    unfold input_id. by rewrite Hi. }
  reflexivity.
Qed.

(** ** The collection *)

(** ** The collection *)

Lemma find_matches q (c : collection) d :
  List.find (matches q) c = Some d -> d !! "_id" = Some q ∧ d ∈ c.
Proof.
  intros [Hin Hm]%find_some. split.
  - by apply bool_decide_eq_true in Hm.
  - by apply list_elem_of_In.
Qed.

Lemma truthy_find q (c : collection) d :
  List.find (matches q) c = Some d -> truthy (Some d) = true.
Proof.
  intros [Hd _]%find_matches. apply bool_decide_eq_true. by intros ->.
Qed.

Lemma find_app_new q (c : collection) d :
  List.find (matches q) c = None -> d !! "_id" = Some q ->
  List.find (matches q) (c ++ [d]) = Some d.
Proof.
  intros Hc Hd. induction c as [|x c IH]; simpl in *.
  - unfold matches. by rewrite bool_decide_eq_true_2.
  - destruct (matches q x); [discriminate|]. by apply IH.
Qed.


Lemma update_first_absent q upd (c : collection) :
  List.find (matches q) c = None -> update_first q upd c = c.
Proof.
  induction c as [|x c IH]; simpl; [done|].
  destruct (matches q x); [discriminate|]. intros H. by rewrite IH.
Qed.

Lemma matches_union q' (upd d : pydict) :
  upd !! "_id" = None -> matches q' (upd ∪ d) = matches q' d.
Proof.
  intros H. unfold matches. by rewrite lookup_union_r.
Qed.

Lemma find_update_first q upd (c : collection) d :
  upd !! "_id" = None -> List.find (matches q) c = Some d ->
  List.find (matches q) (update_first q upd c) = Some (upd ∪ d).
Proof.
  intros Hu. induction c as [|x c IH]; simpl; [discriminate|].
  destruct (matches q x) eqn:E.
  - intros [= ->]. simpl. by rewrite matches_union, E.
  - intros H. simpl. rewrite E. by apply IH.
Qed.

Lemma find_update_first_other (q q' : value) upd (c : collection) :
  upd !! "_id" = None -> q <> q' ->
  List.find (matches q') (update_first q upd c) = List.find (matches q') c.
Proof.
  intros Hu Hne. induction c as [|x c IH]; simpl; [done|].
  destruct (matches q x) eqn:E; simpl.
  - rewrite matches_union by done.
    apply bool_decide_eq_true in E.
    assert (matches q' x = false) as ->; [|done].
    apply bool_decide_eq_false. congruence.
  - by rewrite IH.
Qed.

Lemma ids_update_first q upd (c : collection) :
  upd !! "_id" = None ->
  omap (fun d : pydict => d !! "_id") (update_first q upd c) =
  omap (fun d : pydict => d !! "_id") c.
Proof.
  intros Hu. induction c as [|x c IH]; csimpl; [done|].
  destruct (matches q x); csimpl.
  - by rewrite lookup_union_r.
  - by rewrite IH.
Qed.

Lemma delete_first_absent q (c : collection) :
  List.find (matches q) c = None -> delete_first q c = c.
Proof.
  induction c as [|x c IH]; simpl; [done|].
  destruct (matches q x); [discriminate|]. intros H. by rewrite IH.
Qed.

Lemma find_None_ids q (c : collection) :
  List.find (matches q) c = None <-> q ∉ omap (fun d : pydict => d !! "_id") c.
Proof.
  induction c as [|x c IH]; csimpl.
  - split; [intros _; apply not_elem_of_nil|done].
  - destruct (matches q x) eqn:E.
    + apply bool_decide_eq_true in E. rewrite E. split; [discriminate|].
      intros H. exfalso. apply H. left.
    + apply bool_decide_eq_false in E. rewrite IH.
      destruct (x !! "_id") as [v|] eqn:Ev; [|done].
      rewrite not_elem_of_cons. split; [|tauto]. intros H. split; [congruence|done].
Qed.


(** ** Encoding *)

Lemma map_Forall_record (P : string -> value -> Prop) i n a :
  map_Forall P (record i n a) <-> P "_id" i ∧ P "name" (VStr n) ∧ P "age" (VInt a).
Proof.
  unfold record. rewrite !map_Forall_insert, map_Forall_singleton; [tauto| |].
  - rewrite lookup_singleton_ne; [reflexivity|discriminate].
  - rewrite lookup_insert_ne by discriminate.
    rewrite lookup_singleton_ne; [reflexivity|discriminate].
Qed.

Lemma map_Forall_name_age (P : string -> value -> Prop) n a :
  map_Forall P ({[ "name" := VStr n; "age" := VInt a ]} : pydict) <->
  P "name" (VStr n) ∧ P "age" (VInt a).
Proof.
  rewrite map_Forall_insert, map_Forall_singleton; [tauto|].
  rewrite lookup_singleton_ne; [reflexivity|discriminate].
Qed.

Lemma bson_error_record o n a :
  bson_error (record (VOid o) n a) =
    if utf8_encodable n && int64 a then None
    else Some (if utf8_encodable n then OverflowError else UnicodeEncodeError).
Proof.
  unfold bson_error.
  destruct (utf8_encodable n) eqn:En; simpl.
  - rewrite (bool_decide_eq_true_2 (map_Forall (fun _ v => str_ok v = true) _)).
    2:{ apply map_Forall_record. simpl. by rewrite En. }
    destruct (int64 a) eqn:Ea.
    + rewrite bool_decide_eq_true_2; [reflexivity|].
      apply map_Forall_record. simpl. by rewrite Ea.
    + rewrite bool_decide_eq_false_2; [reflexivity|].
      intros (_ & _ & H)%map_Forall_record. simpl in H. congruence.
  - rewrite bool_decide_eq_false_2; [reflexivity|].
    intros (_ & H & _)%map_Forall_record. simpl in H. congruence.
Qed.

Lemma bson_error_name_age n a :
  bson_error {[ "name" := VStr n; "age" := VInt a ]} =
    if utf8_encodable n && int64 a then None
    else Some (if utf8_encodable n then OverflowError else UnicodeEncodeError).
Proof.
  unfold bson_error.
  destruct (utf8_encodable n) eqn:En; simpl.
  - rewrite (bool_decide_eq_true_2 (map_Forall (fun _ v => str_ok v = true) _)).
    2:{ apply map_Forall_name_age. simpl. by rewrite En. }
    destruct (int64 a) eqn:Ea.
    + rewrite bool_decide_eq_true_2; [reflexivity|].
      apply map_Forall_name_age. simpl. by rewrite Ea.
    + rewrite bool_decide_eq_false_2; [reflexivity|].
      intros [_ H]%map_Forall_name_age. simpl in H. congruence.
  - rewrite bool_decide_eq_false_2; [reflexivity|].
    intros [H _]%map_Forall_name_age. simpl in H. congruence.
Qed.

(** ** The handlers, run *)

(** ** The handlers, run *)

Lemma get_user_run id o c :
  ObjectId_of_str id = Some o ->
  get_user id c =
    (match List.find (matches (VOid o)) c with
     | Some d => Ok d
     | None => http_404 id
     end, c, [OpFindOne (VOid o)]).
Proof.
  intros H. unfold get_user, bind, ObjectId_, find_one. rewrite H.
  unfold ret at 1. cbv beta iota.
  destruct (List.find (matches (VOid o)) c) as [d|] eqn:E.
  - by rewrite (truthy_find _ _ _ E).
  - reflexivity.
Qed.

Lemma get_user_invalid id c :
  ObjectId_of_str id = None -> get_user id c = (Raise (InvalidId id), c, []).
Proof. intros H. unfold get_user, bind, ObjectId_. by rewrite H. Qed.

Lemma delete_user_run id o c :
  ObjectId_of_str id = Some o ->
  delete_user id c =
    (match List.find (matches (VOid o)) c with
     | Some _ => Ok tt
     | None => http_404 id
     end, delete_first (VOid o) c, [OpDeleteOne (VOid o)]).
Proof.
  intros H. unfold delete_user, bind, ObjectId_, delete_one. rewrite H.
  unfold ret at 1. cbv beta iota.
  by destruct (List.find (matches (VOid o)) c).
Qed.

Lemma delete_user_invalid id c :
  ObjectId_of_str id = None -> delete_user id c = (Raise (InvalidId id), c, []).
Proof. intros H. unfold delete_user, bind, ObjectId_. by rewrite H. Qed.

Lemma update_user_noop id u c :
  update_data u = ∅ -> update_user id u c = get_user id c.
Proof.
  intros H. unfold update_user.
  rewrite bool_decide_eq_false_2 by (intros Hne; exact (Hne H)). clear H.
  unfold bind at 1. unfold ret at 1. cbv beta iota. fold (get_user id).
  by destruct (get_user id c) as [[r c'] t].
Qed.

Lemma update_user_run id o u c :
  ObjectId_of_str id = Some o -> update_data u <> ∅ ->
  bson_error (update_data u) = None ->
  update_user id u c =
    (match List.find (matches (VOid o)) c with
     | Some d => Ok (update_data u ∪ d)
     | None => http_404 id
     end,
     update_first (VOid o) (update_data u) c,
     [OpUpdateOne (VOid o) (update_data u); OpFindOne (VOid o)]).
Proof.
  intros H Hne He. unfold update_user.
  rewrite bool_decide_eq_true_2 by exact Hne. clear Hne.
  unfold bind at 1. fold (get_user id).
  unfold bind, ObjectId_, update_one. rewrite H, He. clear He.
  unfold ret at 1.
  cbv beta iota. rewrite (get_user_run id o _ H).
  destruct (List.find (matches (VOid o)) c) as [d|] eqn:E.
  - by rewrite (find_update_first _ _ _ d (update_data_no_id u) E).
  - rewrite (update_first_absent _ _ _ E). by rewrite E.
Qed.

Lemma update_user_unencodable id o u c e :
  ObjectId_of_str id = Some o -> update_data u <> ∅ ->
  bson_error (update_data u) = Some e ->
  update_user id u c = (Raise e, c, []).
Proof.
  intros H Hne He. unfold update_user.
  rewrite bool_decide_eq_true_2 by exact Hne. clear Hne.
  unfold bind, ObjectId_, update_one. rewrite H, He. reflexivity.
Qed.

Lemma update_user_invalid id u c :
  ObjectId_of_str id = None -> update_user id u c = (Raise (InvalidId id), c, []).
Proof.
  intros H. unfold update_user. fold (get_user id).
  case_bool_decide.
  - unfold bind, ObjectId_. rewrite H. reflexivity.
  - unfold bind at 1. unfold ret at 1. cbv beta iota.
    by rewrite get_user_invalid.
Qed.

Lemma new_doc_spec gen u :
  match user_dict u !! "_id" with
  | Some _ => user_dict u
  | None => <["_id" := VOid gen]> (user_dict u)
  end = new_doc gen u.
Proof.
  rewrite user_dict_lookup. rewrite decide_True by done.
  unfold new_doc, record.
  destruct (um_id u) as [o|] eqn:Ei; simpl; apply map_eq; intros k.
  - rewrite user_dict_lookup, Ei. key_cases k; simplify_map_eq; done.
  - destruct (decide (k = "_id")) as [->|]; simplify_map_eq; [done|].
    rewrite user_dict_lookup. key_cases k; simplify_map_eq; done.
Qed.

Lemma create_user_run gen u c :
  create_user gen u c =
    match bson_error (new_doc gen u) with
    | Some e => (Raise e, c, [])
    | None =>
        match List.find (matches (VOid (default gen (um_id u)))) c with
        | Some _ => (Raise DuplicateKeyError, c, [OpInsertOne (new_doc gen u)])
        | None => (Ok (Some (new_doc gen u)), c ++ [new_doc gen u],
                   [OpInsertOne (new_doc gen u);
                    OpFindOne (VOid (default gen (um_id u)))])
        end
    end.
Proof.
  unfold create_user, bind, insert_one. cbv zeta. rewrite new_doc_spec.
  destruct (bson_error (new_doc gen u)); [reflexivity|].
  assert (new_doc gen u !! "_id" = Some (VOid (default gen (um_id u)))) as Hi
    by apply lookup_insert_eq.
  rewrite Hi. set (i := VOid (default gen (um_id u))) in *.
  change (default (VOid gen) (Some i)) with i.
  destruct (List.find (matches i) c) eqn:E; [reflexivity|].
  unfold find_one. by rewrite (find_app_new _ _ _ E Hi).
Qed.

(** ** The routes, run *)

Lemma validated_name_age d u :
  UserModel_validate d = Some u ->
  d !! "name" = Some (VStr (um_name u)) ∧ blank (um_name u) = false ∧
  validate_age d = Some (um_age u).
Proof.
  intros (_ & Hn & Ha & _)%UserModel_validate_Some.
  apply validate_name_Some in Hn as [Hn B]. repeat split; assumption.
Qed.

Lemma validated_update_nonempty d u :
  UserModel_validate d = Some u -> update_data u <> ∅.
Proof.
  intros H. rewrite (validated_update_data d u H). apply insert_non_empty.
Qed.

Lemma serialize_updated d o payload u :
  d !! "_id" = Some (VOid o) -> UserModel_validate payload = Some u ->
  serialize_user (update_data u ∪ d) =
    Some (record (VStr (ObjectId_str o)) (um_name u) (um_age u)).
Proof.
  intros Hd Hu. destruct (validated_name_age _ _ Hu) as (_ & B & _).
  apply serialize_user_doc; [| | done |].
  - rewrite lookup_union_r; [done|apply update_data_no_id].
  - apply lookup_union_Some_l. rewrite (validated_update_data _ _ Hu).
    by simplify_map_eq.
  - apply lookup_union_Some_l. rewrite (validated_update_data _ _ Hu).
    by simplify_map_eq.
Qed.

Lemma bson_update_data d u :
  UserModel_validate d = Some u ->
  bson_error (update_data u) = if storable u then None else Some (encode_exn u).
Proof.
  intros Hu. rewrite (validated_update_data _ _ Hu). apply bson_error_name_age.
Qed.

Lemma bson_new_doc gen u :
  bson_error (new_doc gen u) = if storable u then None else Some (encode_exn u).
Proof. apply bson_error_record. Qed.

Lemma GET_user_run id o c :
  ObjectId_of_str id = Some o ->
  GET_user id c =
    (match List.find (matches (VOid o)) c with
     | Some d => match serialize_user d with
                 | Some j => {| status_code := 200; body := JUser j |}
                 | None => server_error
                 end
     | None => not_found_response id
     end, c, [OpFindOne (VOid o)]).
Proof.
  intros H. unfold GET_user. rewrite (get_user_run id o c H).
  destruct (List.find (matches (VOid o)) c) as [d|]; [|done].
  unfold respond. by destruct (serialize_user d).
Qed.

Lemma PUT_user_run id o payload u c :
  ObjectId_of_str id = Some o -> UserModel_validate payload = Some u ->
  PUT_user id payload c =
    if storable u
    then (if List.find (matches (VOid o)) c is Some _
          then user_response 200 o (um_name u) (um_age u)
          else not_found_response id,
          update_first (VOid o) (update_data u) c,
          [OpUpdateOne (VOid o) (update_data u); OpFindOne (VOid o)])
    else (server_error, c, []).
Proof.
  intros Hi Hu. unfold PUT_user, with_body. rewrite Hu.
  pose proof (bson_update_data _ _ Hu) as He.
  destruct (storable u).
  - rewrite (update_user_run id o u c Hi (validated_update_nonempty _ _ Hu) He).
    clear He.
    destruct (List.find (matches (VOid o)) c) as [d|] eqn:E; [|reflexivity].
    apply find_matches in E as [Hd _]. unfold respond.
    by rewrite (serialize_updated d o payload u Hd Hu).
  - rewrite (update_user_unencodable id o u c _ Hi
               (validated_update_nonempty _ _ Hu) He).
    clear He. unfold respond. unfold encode_exn.
    by destruct (utf8_encodable (um_name u)).
Qed.

Lemma PUT_user_rejected id payload c :
  UserModel_validate payload = None ->
  PUT_user id payload c = (unprocessable, c, []).
Proof. intros H. unfold PUT_user, with_body. by rewrite H. Qed.

Lemma POST_users_rejected gen payload c :
  UserModel_validate payload = None ->
  POST_users gen payload c = (unprocessable, c, []).
Proof. intros H. unfold POST_users, with_body. by rewrite H. Qed.

Lemma new_doc_id gen u :
  new_doc gen u !! "_id" = Some (VOid (default gen (um_id u))).
Proof. apply lookup_insert_eq. Qed.

Lemma serialize_new_doc gen payload u :
  UserModel_validate payload = Some u ->
  serialize_user (new_doc gen u) =
    Some (record (VStr (ObjectId_str (default gen (um_id u)))) (um_name u) (um_age u)).
Proof.
  intros Hu. destruct (validated_name_age _ _ Hu) as (_ & B & _).
  apply serialize_user_doc; [apply new_doc_id| |exact B|]; unfold new_doc, record.
  - rewrite lookup_insert_ne by discriminate. apply lookup_insert_eq.
  - rewrite !lookup_insert_ne by discriminate. apply lookup_singleton_eq.
Qed.

Lemma POST_users_run gen payload u c :
  UserModel_validate payload = Some u ->
  POST_users gen payload c =
    if storable u
    then (if List.find (matches (VOid (default gen (um_id u)))) c is Some _
          then (server_error, c, [OpInsertOne (new_doc gen u)])
          else (user_response 201 (default gen (um_id u)) (um_name u) (um_age u),
                c ++ [new_doc gen u],
                [OpInsertOne (new_doc gen u);
                 OpFindOne (VOid (default gen (um_id u)))]))
    else (server_error, c, []).
Proof.
  intros Hu. unfold POST_users, with_body. rewrite Hu, create_user_run.
  rewrite bson_new_doc. destruct (storable u).
  - destruct (List.find (matches (VOid (default gen (um_id u)))) c);
      [reflexivity|].
    unfold respond. cbn [mbind option_bind].
    by rewrite (serialize_new_doc gen payload u Hu).
  - unfold respond. unfold encode_exn.
    by destruct (utf8_encodable (um_name u)).
Qed.

Lemma validate_without_id payload n a :
  payload !! "name" = Some (VStr n) -> blank n = false ->
  payload !! "age" = Some (VInt a) ->
  input_id payload = None ∨ input_id payload = Some VNone ->
  ∃ u, UserModel_validate payload = Some u ∧ um_id u = None ∧
       um_name u = n ∧ um_age u = a.
Proof.
  intros Hn B Ha Hi. eexists {| um_id := None; um_name := n; um_age := a |}.
  split; [|done]. apply UserModel_validate_Some. simpl.
  repeat split; [|by apply validate_name_Some|by apply validate_age_int].
  unfold validate_id. by destruct Hi as [-> | ->].
Qed.

Lemma not_blank (s : str) : strip s <> [] <-> blank s = false.
Proof.
  rewrite strip_nil. destruct (blank s); split; intros H; congruence.
Qed.

Lemma blank_Forall (s : str) :
  blank s = true <-> Forall (fun ch => isspace ch = true) s.
Proof.
  unfold blank. induction s as [|ch s IH]; simpl.
  - split; [intros _; constructor|done].
  - rewrite andb_true_iff, Forall_cons, IH. tauto.
Qed.


Lemma PUT_user_invalid id payload u c :
  ObjectId_of_str id = None -> UserModel_validate payload = Some u ->
  PUT_user id payload c = (server_error, c, []).
Proof.
  intros Hi Hu. unfold PUT_user, with_body.
  by rewrite Hu, (update_user_invalid id u c Hi).
Qed.

Lemma merged_doc (n : str) (a : Z) (d : pydict) :
  ({[ "name" := VStr n; "age" := VInt a ]} : pydict) ∪ d =
  <["name" := VStr n]> (<["age" := VInt a]> d).
Proof. by rewrite <- !insert_union_l, <- insert_union_singleton_l. Qed.

Lemma merged_doc_name (n : str) (a : Z) (d : pydict) :
  <["name" := VStr n]> (<["age" := VInt a]> d) !! "name" = Some (VStr n).
Proof. apply lookup_insert_eq. Qed.

Lemma merged_doc_age (n : str) (a : Z) (d : pydict) :
  <["name" := VStr n]> (<["age" := VInt a]> d) !! "age" = Some (VInt a).
Proof. rewrite lookup_insert_ne by discriminate. apply lookup_insert_eq. Qed.

Lemma merged_doc_other (n : str) (a : Z) (d : pydict) (k : string) :
  k <> "name" -> k <> "age" ->
  <["name" := VStr n]> (<["age" := VInt a]> d) !! k = d !! k.
Proof. intros Hn Ha. rewrite !lookup_insert_ne by congruence. reflexivity. Qed.

Lemma name_age_lookup (n : str) (a : Z) :
  ({[ "name" := VStr n; "age" := VInt a ]} : pydict) !! "name" = Some (VStr n) ∧
  ({[ "name" := VStr n; "age" := VInt a ]} : pydict) !! "age" = Some (VInt a) ∧
  ({[ "name" := VStr n; "age" := VInt a ]} : pydict) !! "_id" = None.
Proof.
  split; [apply lookup_insert_eq|]. split.
  - rewrite lookup_insert_ne by discriminate. apply lookup_singleton_eq.
  - rewrite lookup_insert_ne by discriminate. apply lookup_singleton_ne.
    discriminate.
Qed.

Lemma length_update_first q upd (c : collection) :
  length (update_first q upd c) = length c.
Proof.
  induction c as [|x c IH]; simpl; [reflexivity|].
  destruct (matches q x); simpl; [reflexivity|by rewrite IH].
Qed.

Lemma validate_needs_name payload :
  payload !! "name" = None ∨ payload !! "name" = Some VNone ->
  UserModel_validate payload = None.
Proof.
  intros H. destruct (UserModel_validate payload) as [u|] eqn:E; [|done].
  destruct (validated_name_age _ _ E) as (Hn & _). destruct H; congruence.
Qed.


Lemma DELETE_user_run id o c :
  ObjectId_of_str id = Some o ->
  DELETE_user id c =
    (if List.find (matches (VOid o)) c is Some _
     then {| status_code := 204; body := JEmpty |}
     else not_found_response id,
     delete_first (VOid o) c, [OpDeleteOne (VOid o)]).
Proof.
  intros H. unfold DELETE_user. rewrite (delete_user_run id o c H).
  by destruct (List.find (matches (VOid o)) c).
Qed.

(** ** The collection between requests *)

(** ** The collection between requests *)

Lemma user_document_intro d o n a :
  d !! "_id" = Some (VOid o) -> d !! "name" = Some (VStr n) ->
  blank n = false -> d !! "age" = Some (VInt a) -> user_document d.
Proof.
  intros Hi Hn B Ha. pose proof (serialize_user_doc d o n a Hi Hn B Ha) as H.
  unfold serialize_user in H. unfold user_document.
  destruct (UserModel_validate d) as [u|]; [eexists; reflexivity|discriminate H].
Qed.

Lemma unique_ids_snoc (c : collection) (d : pydict) q :
  unique_ids c -> d !! "_id" = Some q -> List.find (matches q) c = None ->
  unique_ids (c ++ [d]).
Proof.
  unfold unique_ids. intros Hc Hd Hq. rewrite omap_app. csimpl. rewrite Hd.
  apply NoDup_app. split; [exact Hc|]. split; [|apply NoDup_singleton].
  intros x Hx Hin%list_elem_of_singleton. subst x.
  apply find_None_ids in Hq. exact (Hq Hx).
Qed.

Lemma user_documents_delete_first q (c : collection) :
  Forall user_document c -> Forall user_document (delete_first q c).
Proof.
  induction c as [|x c IH]; simpl; [intros H; exact H|].
  intros [Hx Hc]%Forall_cons. destruct (matches q x); [exact Hc|].
  apply Forall_cons. split; [exact Hx|by apply IH].
Qed.

Lemma unique_ids_delete_first q (c : collection) :
  unique_ids c -> unique_ids (delete_first q c).
Proof.
  unfold unique_ids. induction c as [|x c IH]; csimpl; [intros H; exact H|].
  destruct (matches q x); csimpl.
  - destruct (x !! "_id"); [by intros [_ H]%NoDup_cons|intros H; exact H].
  - destruct (x !! "_id") as [v|]; [|exact IH].
    intros [Hn H]%NoDup_cons. apply NoDup_cons. split; [|by apply IH].
    intros Hin. apply Hn. clear -Hin.
    induction c as [|y c IHc]; csimpl in *; [exact Hin|].
    destruct (matches q y); csimpl in *.
    + destruct (y !! "_id"); [by right|exact Hin].
    + destruct (y !! "_id"); [|by apply IHc].
      apply elem_of_cons in Hin as [->|Hin]; [left|right; by apply IHc].
Qed.

Lemma user_documents_update_first o payload u (c : collection) :
  UserModel_validate payload = Some u -> Forall user_document c ->
  Forall user_document (update_first (VOid o) (update_data u) c).
Proof.
  intros Hu. induction c as [|x c IH]; simpl; [intros H; exact H|].
  intros [Hx Hc]%Forall_cons. destruct (matches (VOid o) x) eqn:E.
  - apply Forall_cons. split; [|exact Hc].
    apply bool_decide_eq_true in E.
    pose proof (serialize_updated x o payload u E Hu) as H.
    unfold serialize_user in H. unfold user_document.
    destruct (UserModel_validate (update_data u ∪ x));
      [eexists; reflexivity|discriminate H].
  - apply Forall_cons. split; [exact Hx|by apply IH].
Qed.

(** Every route leaves the collection in a good state; the empty
    collection is one. *)
Lemma store_ok_nil : store_ok [].
Proof. split; [apply NoDup_nil_2|apply Forall_nil_2]. Qed.

Lemma POST_users_store_ok gen payload c :
  store_ok c -> store_ok (store_after (POST_users gen payload c)).
Proof.
  intros [Hu Hd]. unfold store_after.
  destruct (UserModel_validate payload) as [u|] eqn:E.
  2:{ rewrite (POST_users_rejected gen payload c E). by split. }
  rewrite (POST_users_run gen payload u c E).
  destruct (storable u); [|by split].
  destruct (List.find (matches (VOid (default gen (um_id u)))) c) eqn:F;
    cbn [fst snd]; [by split|].
  split.
  - exact (unique_ids_snoc c _ _ Hu (new_doc_id gen u) F).
  - apply Forall_app. split; [exact Hd|]. apply Forall_singleton.
    pose proof (serialize_new_doc gen payload u E) as S.
    unfold serialize_user in S. unfold user_document.
    destruct (UserModel_validate (new_doc gen u));
      [eexists; reflexivity|discriminate S].
Qed.

Lemma PUT_user_store_ok id payload c :
  store_ok c -> store_ok (store_after (PUT_user id payload c)).
Proof.
  intros [Hu Hd]. unfold store_after.
  destruct (UserModel_validate payload) as [u|] eqn:E.
  2:{ rewrite (PUT_user_rejected id payload c E). by split. }
  destruct (ObjectId_of_str id) as [o|] eqn:Hi.
  2:{ rewrite (PUT_user_invalid id payload u c Hi E). by split. }
  rewrite (PUT_user_run id o payload u c Hi E).
  destruct (storable u); [|by split]. cbn [fst snd]. split.
  - unfold unique_ids. rewrite ids_update_first; [exact Hu|].
    apply update_data_no_id.
  - by apply (user_documents_update_first o payload).
Qed.

Lemma DELETE_user_store_ok id c :
  store_ok c -> store_ok (store_after (DELETE_user id c)).
Proof.
  intros [Hu Hd]. unfold store_after.
  destruct (ObjectId_of_str id) as [o|] eqn:Hi.
  - rewrite (DELETE_user_run id o c Hi). cbn [fst snd]. split.
    + by apply unique_ids_delete_first.
    + by apply user_documents_delete_first.
  - unfold DELETE_user. rewrite (delete_user_invalid id c Hi). by split.
Qed.

Lemma reads_keep_store id c :
  store_after (GET_users c) = c ∧ store_after (GET_user id c) = c.
Proof.
  split.
  - unfold GET_users, list_users, find_to_list, respond, store_after.
    by destruct (JUsers <$> serialize_users (take 1000 c)).
  - unfold store_after. destruct (ObjectId_of_str id) as [o|] eqn:Hi.
    + by rewrite (GET_user_run id o c Hi).
    + unfold GET_user. by rewrite (get_user_invalid id c Hi).
Qed.

(** ** What a route can answer *)

Lemma POST_users_cases gen payload c :
  (UserModel_validate payload = None ∧
   POST_users gen payload c = (unprocessable, c, [])) ∨
  (∃ u, UserModel_validate payload = Some u ∧ storable u = false ∧
        POST_users gen payload c = (server_error, c, [])) ∨
  (∃ u d, UserModel_validate payload = Some u ∧ storable u = true ∧
          List.find (matches (VOid (default gen (um_id u)))) c = Some d ∧
          POST_users gen payload c =
            (server_error, c, [OpInsertOne (new_doc gen u)])) ∨
  (∃ u, UserModel_validate payload = Some u ∧ storable u = true ∧
        List.find (matches (VOid (default gen (um_id u)))) c = None ∧
        POST_users gen payload c =
          (user_response 201 (default gen (um_id u)) (um_name u) (um_age u),
           c ++ [new_doc gen u],
           [OpInsertOne (new_doc gen u);
            OpFindOne (VOid (default gen (um_id u)))])).
Proof.
  destruct (UserModel_validate payload) as [u|] eqn:E.
  2:{ left. split; [reflexivity|]. exact (POST_users_rejected gen payload c E). }
  right. pose proof (POST_users_run gen payload u c E) as R.
  destruct (storable u) eqn:S.
  2:{ left. exists u. split; [reflexivity|]. split; [exact S|exact R]. }
  right.
  destruct (List.find (matches (VOid (default gen (um_id u)))) c)
    as [d|] eqn:F.
  - left. exists u, d. split; [reflexivity|]. split; [exact S|].
    split; [exact F|exact R].
  - right. exists u. split; [reflexivity|]. split; [exact S|].
    split; [exact F|exact R].
Qed.

Lemma PUT_user_cases id payload c :
  (UserModel_validate payload = None ∧
   PUT_user id payload c = (unprocessable, c, [])) ∨
  (∃ u, UserModel_validate payload = Some u ∧ ObjectId_of_str id = None ∧
        PUT_user id payload c = (server_error, c, [])) ∨
  (∃ u o, UserModel_validate payload = Some u ∧ ObjectId_of_str id = Some o ∧
          storable u = false ∧
          PUT_user id payload c = (server_error, c, [])) ∨
  (∃ u o, UserModel_validate payload = Some u ∧ ObjectId_of_str id = Some o ∧
          storable u = true ∧
          List.find (matches (VOid o)) c = None ∧
          PUT_user id payload c =
            (not_found_response id, c,
             [OpUpdateOne (VOid o) (update_data u); OpFindOne (VOid o)])) ∨
  (∃ u o d, UserModel_validate payload = Some u ∧ ObjectId_of_str id = Some o ∧
            storable u = true ∧
            List.find (matches (VOid o)) c = Some d ∧
            PUT_user id payload c =
              (user_response 200 o (um_name u) (um_age u),
               update_first (VOid o) (update_data u) c,
               [OpUpdateOne (VOid o) (update_data u); OpFindOne (VOid o)])).
Proof.
  destruct (UserModel_validate payload) as [u|] eqn:E.
  2:{ left. split; [reflexivity|]. exact (PUT_user_rejected id payload c E). }
  right. destruct (ObjectId_of_str id) as [o|] eqn:Hi.
  2:{ left. exists u. split; [reflexivity|]. split; [reflexivity|].
      exact (PUT_user_invalid id payload u c Hi E). }
  right. pose proof (PUT_user_run id o payload u c Hi E) as R.
  destruct (storable u) eqn:S.
  2:{ left. exists u, o. split; [reflexivity|]. split; [reflexivity|].
      split; [exact S|exact R]. }
  right.
  destruct (List.find (matches (VOid o)) c) as [d|] eqn:F.
  - right. exists u, o, d. split; [reflexivity|]. split; [reflexivity|].
    split; [exact S|]. split; [exact F|exact R].
  - left. exists u, o. rewrite (update_first_absent _ _ _ F) in R.
    split; [reflexivity|]. split; [reflexivity|]. split; [exact S|].
    split; [exact F|exact R].
Qed.

Lemma DELETE_user_cases id c :
  (ObjectId_of_str id = None ∧ DELETE_user id c = (server_error, c, [])) ∨
  (∃ o, ObjectId_of_str id = Some o ∧ List.find (matches (VOid o)) c = None ∧
        DELETE_user id c = (not_found_response id, c, [OpDeleteOne (VOid o)])) ∨
  (∃ o d, ObjectId_of_str id = Some o ∧ List.find (matches (VOid o)) c = Some d ∧
          DELETE_user id c =
            ({| status_code := 204; body := JEmpty |},
             delete_first (VOid o) c, [OpDeleteOne (VOid o)])).
Proof.
  destruct (ObjectId_of_str id) as [o|] eqn:Hi.
  - right. pose proof (DELETE_user_run id o c Hi) as R.
    destruct (List.find (matches (VOid o)) c) as [d|] eqn:F.
    + right. exists o, d. split; [reflexivity|]. split; [exact F|exact R].
    + left. exists o. rewrite (delete_first_absent _ _ F) in R.
      split; [reflexivity|]. split; [exact F|exact R].
  - left. split; [reflexivity|]. unfold DELETE_user.
    rewrite (delete_user_invalid id c Hi). reflexivity.
Qed.

Lemma GET_user_cases id c :
  (ObjectId_of_str id = None ∧ GET_user id c = (server_error, c, [])) ∨
  (∃ o, ObjectId_of_str id = Some o ∧ List.find (matches (VOid o)) c = None ∧
        GET_user id c = (not_found_response id, c, [OpFindOne (VOid o)])) ∨
  (∃ o d, ObjectId_of_str id = Some o ∧ List.find (matches (VOid o)) c = Some d ∧
          GET_user id c =
            (match serialize_user d with
             | Some j => {| status_code := 200; body := JUser j |}
             | None => server_error
             end, c, [OpFindOne (VOid o)])).
Proof.
  destruct (ObjectId_of_str id) as [o|] eqn:Hi.
  - right. pose proof (GET_user_run id o c Hi) as R.
    destruct (List.find (matches (VOid o)) c) as [d|] eqn:F.
    + right. exists o, d. split; [reflexivity|]. split; [exact F|exact R].
    + left. exists o. split; [reflexivity|]. split; [exact F|exact R].
  - left. split; [reflexivity|]. unfold GET_user.
    rewrite (get_user_invalid id c Hi). reflexivity.
Qed.

Lemma GET_users_run c :
  GET_users c =
    (match serialize_users (take 1000 c) with
     | Some l => {| status_code := 200; body := JUsers l |}
     | None => server_error
     end, c, [OpFind]).
Proof.
  unfold GET_users, list_users, find_to_list, respond.
  destruct (serialize_users (take 1000 c)); reflexivity.
Qed.

(** ** More about the collection *)

Lemma update_first_idem q (upd : pydict) (c : collection) :
  upd !! "_id" = None ->
  update_first q upd (update_first q upd c) = update_first q upd c.
Proof.
  intros Hu. induction c as [|x c IH]; simpl; [reflexivity|].
  destruct (matches q x) eqn:E; simpl.
  - rewrite (matches_union q upd x Hu), E.
    by rewrite (assoc_L (∪)), (idemp_L (∪)).
  - by rewrite E, IH.
Qed.


Lemma length_delete_first q (c : collection) d :
  List.find (matches q) c = Some d ->
  S (length (delete_first q c)) = length c.
Proof.
  induction c as [|x c IH]; simpl; [discriminate|].
  destruct (matches q x); [reflexivity|].
  intros H. simpl. by rewrite (IH H).
Qed.

Lemma delete_first_snoc q (c : collection) (d : pydict) :
  List.find (matches q) c = None -> d !! "_id" = Some q ->
  delete_first q (c ++ [d]) = c.
Proof.
  intros Hc Hd. induction c as [|x c IH]; simpl in *.
  - unfold matches. by rewrite bool_decide_eq_true_2.
  - destruct (matches q x); [discriminate|]. by rewrite IH.
Qed.


(** * The claims *)

(** C3, amended.  Create, then Get.  For a payload with a name that is
    not empty after trimming and that the driver can encode, an integer
    age within the signed 64-bit range and no identifier (absent or
    null), and for the fresh identifier [gen] the driver assigns,
    POST /users/ answers 201 with the record made of the payload's name
    and age and of [gen] in string form, which is not null; the
    collection gains that document; and GET /users/{id} on the returned
    identifier answers 200 with the same record. *)
Theorem create_then_get (gen : ObjectId) (payload : pydict) (n : str) (a : Z)
    (c : collection) :
  payload !! "name" = Some (VStr n) -> strip n <> [] ->
  payload !! "age" = Some (VInt a) ->
  utf8_encodable n = true -> int64 a = true ->
  input_id payload = None ∨ input_id payload = Some VNone ->
  ObjectId_wf gen -> List.find (matches (VOid gen)) c = None ->
  let created := POST_users gen payload c in
  let returned_id := ObjectId_str gen in
  reply created = user_response 201 gen n a ∧
  store_after created = c ++ [record (VOid gen) n a] ∧
  record (VStr returned_id) n a !! "_id" = Some (VStr returned_id) ∧
  VStr returned_id <> VNone ∧
  reply (GET_user returned_id (store_after created)) = user_response 200 gen n a.
Proof.
  intros Hn Hs Ha En Ea Hi Hwf Hfresh. apply not_blank in Hs.
  destruct (validate_without_id payload n a Hn Hs Ha Hi)
    as (u & Hu & Hid & <- & <-).
  cbv zeta. rewrite (POST_users_run gen payload u c Hu).
  unfold storable. rewrite En, Ea. cbn [andb].
  rewrite Hid. cbn [default from_option id]. rewrite Hfresh.
  unfold reply, store_after, new_doc. rewrite Hid.
  cbn [fst snd default from_option id].
  split; [reflexivity|]. split; [reflexivity|].
  split; [apply lookup_insert_eq|]. split; [discriminate|].
  rewrite (GET_user_run _ gen) by (by apply ObjectId_of_str_str).
  cbn [fst]. rewrite (find_app_new _ c _ Hfresh) by apply lookup_insert_eq.
  rewrite (serialize_user_doc _ gen (um_name u) (um_age u));
    [reflexivity|apply lookup_insert_eq| |exact Hs|].
  - unfold record. rewrite lookup_insert_ne by discriminate.
    apply lookup_insert_eq.
  - unfold record. rewrite !lookup_insert_ne by discriminate.
    apply lookup_singleton_eq.
Qed.

(** C4.  A name that is empty or all whitespace.  POST /users/ with such a
    name answers 422, makes no store call and leaves the collection as it
    was. *)
Theorem create_blank_name_rejected (gen : ObjectId) (payload : pydict) (s : str)
    (c : collection) :
  payload !! "name" = Some (VStr s) -> Forall (fun ch => isspace ch = true) s ->
  POST_users gen payload c = (unprocessable, c, []) ∧
  status_code unprocessable = 422 ∧
  length (store_after (POST_users gen payload c)) = length c.
Proof.
  intros Hn Hs.
  assert (POST_users gen payload c = (unprocessable, c, [])) as ->.
  { apply POST_users_rejected.
    destruct (UserModel_validate payload) as [u|] eqn:E; [|done].
    destruct (validated_name_age _ _ E) as (Hn' & B & _).
    rewrite Hn in Hn'. injection Hn' as ->.
    apply blank_Forall in Hs. congruence. }
  done.
Qed.


(** C7.  List.  When every stored document is a user document,
    GET /users/ answers 200 with the JSON forms of the first 1000
    documents, in the order of the collection, with a single store call:
    at most 1000 records, the empty array for the empty collection, and
    every document, one record each, when there are at most 1000. *)
Theorem list_users_capped (c : collection) :
  Forall user_document c ->
  ∃ l, GET_users c = ({| status_code := 200; body := JUsers l |}, c, [OpFind]) ∧
       Forall2 (fun d j => serialize_user d = Some j) (take 1000 c) l ∧
       (length l <= 1000)%nat ∧
       (c = [] -> l = []) ∧
       ((length c <= 1000)%nat ->
        Forall2 (fun d j => serialize_user d = Some j) c l ∧
        length l = length c).
Proof.
  intros Hc.
  assert (is_Some (serialize_users (take 1000 c))) as [l Hl].
  { apply mapM_is_Some_2. apply Forall_take.
    eapply Forall_impl; [exact Hc|]. intros d [u Hd]. simpl.
    unfold serialize_user. rewrite Hd. by eexists. }
  exists l. unfold GET_users, list_users, find_to_list, respond.
  rewrite Hl. cbn [fmap option_fmap option_map]. split; [done|].
  apply mapM_Some_1 in Hl. split; [done|].
  pose proof (Forall2_length _ _ _ Hl) as Hlen. rewrite length_take in Hlen.
  split; [lia|]. split.
  - intros ->. by apply Forall2_nil_inv_l in Hl.
  - intros Hle. rewrite take_ge in Hl by done. split; [done|lia].
Qed.

(** C9.  The update set of a validated PUT body.  A body that passes
    validation gives both name and age, neither null; the update set
    computed from it is exactly these two fields, hence never empty; and
    every [update_one] call that PUT /users/{id} makes sets both, so that
    the matching document carries the body's name and age afterwards. *)
Theorem put_sets_name_and_age (payload : pydict) (u : UserModel) :
  UserModel_validate payload = Some u ->
  (is_Some (payload !! "name") ∧ payload !! "name" <> Some VNone) ∧
  (is_Some (payload !! "age") ∧ payload !! "age" <> Some VNone) ∧
  update_data u = {[ "name" := VStr (um_name u); "age" := VInt (um_age u) ]} ∧
  update_data u <> ∅ ∧
  ∀ id c q upd,
    OpUpdateOne q upd ∈ trace (PUT_user id payload c) ->
    upd !! "name" = Some (VStr (um_name u)) ∧
    upd !! "age" = Some (VInt (um_age u)) ∧
    ∀ d, List.find (matches q) c = Some d ->
         ∃ d', List.find (matches q) (store_after (PUT_user id payload c)) = Some d' ∧
               d' !! "name" = Some (VStr (um_name u)) ∧
               d' !! "age" = Some (VInt (um_age u)).
Proof.
  intros Hu. destruct (validated_name_age _ _ Hu) as (Hn & _ & Ha).
  apply validate_age_given in Ha.
  destruct (name_age_lookup (um_name u) (um_age u)) as (Ln & La & Li).
  split; [rewrite Hn; split; [eexists; reflexivity|discriminate]|].
  split; [exact Ha|].
  split; [exact (validated_update_data _ _ Hu)|].
  split; [exact (validated_update_nonempty _ _ Hu)|].
  intros id c q upd. unfold trace, store_after.
  destruct (ObjectId_of_str id) as [o|] eqn:Hi.
  - rewrite (PUT_user_run id o payload u c Hi Hu).
    destruct (storable u); cbn [fst snd].
    2:{ intros Hin. exfalso. exact (not_elem_of_nil _ Hin). }
    rewrite (validated_update_data _ _ Hu).
    intros Hin. apply elem_of_cons in Hin as [Hin|Hin].
    2:{ apply elem_of_cons in Hin as [Hin|Hin]; [discriminate Hin|].
        exfalso. exact (not_elem_of_nil _ Hin). }
    injection Hin as -> ->.
    split; [exact Ln|]. split; [exact La|].
    intros d Hf. eexists. split.
    + apply find_update_first; [exact Li|exact Hf].
    + rewrite merged_doc. split; [apply merged_doc_name|apply merged_doc_age].
  - rewrite (PUT_user_invalid id payload u c Hi Hu). cbn [snd].
    intros Hin. exfalso. exact (not_elem_of_nil _ Hin).
Qed.

(** C10, amended.  The name validator.  It refuses exactly the names
    whose trimmed value is empty, and returns any other name unchanged;
    when the driver can encode the name and the age (no surrogate code
    point in the name, the age within the signed 64-bit range),
    POST /users/ then stores and returns that name as supplied,
    surrounding whitespace included. *)
Theorem name_kept_verbatim (v : str) :
  (name_must_not_be_empty v = None <-> strip v = []) ∧
  (strip v <> [] ->
   name_must_not_be_empty v = Some v ∧
   ∀ gen payload a c,
     payload !! "name" = Some (VStr v) -> payload !! "age" = Some (VInt a) ->
     utf8_encodable v = true -> int64 a = true ->
     input_id payload = None ∨ input_id payload = Some VNone ->
     List.find (matches (VOid gen)) c = None ->
     reply (POST_users gen payload c) = user_response 201 gen v a ∧
     store_after (POST_users gen payload c) = c ++ [record (VOid gen) v a]).
Proof.
  rewrite name_must_not_be_empty_spec. split.
  - rewrite strip_nil. by destruct (blank v).
  - intros B%not_blank. rewrite B. split; [done|].
    intros gen payload a c Hn Ha En Ea Hi Hfresh.
    destruct (validate_without_id payload v a Hn B Ha Hi)
      as (u & Hu & Hid & <- & <-).
    rewrite (POST_users_run gen payload u c Hu).
    unfold storable. rewrite En, Ea. cbn [andb].
    unfold new_doc. rewrite Hid. cbn [default from_option id]. by rewrite Hfresh.
Qed.

(** C2, amended.  For a path identifier that is not in the store's format,
    GET, PUT and DELETE /users/{id} fail before any store call and leave
    the collection as it was: [ObjectId(id)] raises [InvalidId], which no
    handler catches, so the answer is 500; for PUT the body is validated
    first, and a body that fails validation is answered 422 instead. *)
Theorem malformed_id_no_store_access (id : str) (c : collection) :
  ObjectId_of_str id = None ->
  get_user id c = (Raise (InvalidId id), c, []) ∧
  GET_user id c = (server_error, c, []) ∧
  DELETE_user id c = (server_error, c, []) ∧
  ∀ payload,
    PUT_user id payload c =
      (if UserModel_validate payload is Some _ then server_error else unprocessable,
       c, []).
Proof.
  intros H. split; [by apply get_user_invalid|].
  split; [unfold GET_user; by rewrite get_user_invalid|].
  split; [unfold DELETE_user; by rewrite delete_user_invalid|].
  intros payload. destruct (UserModel_validate payload) as [u|] eqn:E.
  - by apply (PUT_user_invalid id payload u).
  - by apply PUT_user_rejected.
Qed.


(** * Further properties of the handlers *)

(** ** Requests that fail, requests in sequence *)

(** X1.  A request that is answered with an error status (400 or above)
    leaves the collection exactly as it was, on every route. *)
Theorem failed_request_changes_nothing (gen : ObjectId) (req : request)
    (c : collection) :
  400 <= status_of (reply (serve gen req c)) ->
  store_after (serve gen req c) = c.
Proof.
  unfold reply, store_after.
  destruct req as [|payload| |id|id payload|id]; cbn [serve routed fst snd].
  - reflexivity.
  - destruct (POST_users_cases gen payload c)
      as [[_ ->]|[(u & _ & _ & ->)|[(u & d & _ & _ & _ & ->)
         |(u & _ & _ & _ & ->)]]];
      cbn [fst snd status_of status_code user_response];
      [reflexivity|reflexivity|reflexivity|lia].
  - rewrite GET_users_run. reflexivity.
  - destruct (GET_user_cases id c)
      as [[_ ->]|[(o & _ & _ & ->)|(o & d & _ & _ & ->)]]; reflexivity.
  - destruct (PUT_user_cases id payload c)
      as [[_ ->]|[(u & _ & _ & ->)|[(u & o & _ & _ & _ & ->)
         |[(u & o & _ & _ & _ & _ & ->)|(u & o & d & _ & _ & _ & _ & ->)]]]];
      cbn [fst snd status_of status_code user_response];
      [reflexivity|reflexivity|reflexivity|reflexivity|lia].
  - destruct (DELETE_user_cases id c)
      as [[_ ->]|[(o & _ & _ & ->)|(o & d & _ & _ & ->)]];
      cbn [fst snd status_of status_code]; [reflexivity|reflexivity|lia].
Qed.

Lemma serve_store_ok gen req c :
  store_ok c -> store_ok (store_after (serve gen req c)).
Proof.
  intros H. destruct req as [|payload| |id|id payload|id]; cbn [serve].
  - exact H.
  - exact (POST_users_store_ok gen payload c H).
  - change (store_ok (store_after (GET_users c))).
    destruct (reads_keep_store [] c) as [-> _]. exact H.
  - change (store_ok (store_after (GET_user id c))).
    destruct (reads_keep_store id c) as [_ ->]. exact H.
  - exact (PUT_user_store_ok id payload c H).
  - exact (DELETE_user_store_ok id c H).
Qed.

(** X2.  Whatever requests are served, in whatever order and with
    whatever identifiers the driver generates, a collection with unique
    identifiers that holds only user documents stays one; so does the
    empty collection. *)
Theorem serve_all_store_ok (reqs : list (ObjectId * request)) (c : collection) :
  store_ok c -> store_ok (serve_all reqs c).
Proof.
  revert c. induction reqs as [|[gen req] reqs IH]; intros c H; simpl.
  - exact H.
  - apply IH. by apply serve_store_ok.
Qed.

(** ** Identifiers that are not stored *)


(** ** Update *)

(** X4.  PUT is idempotent: sending the same valid body to the same
    well-formed identifier a second time gives the same answer, makes the
    same store calls and leaves the collection as the first request left
    it. *)
Theorem update_idempotent (id : str) (o : ObjectId) (payload : pydict)
    (u : UserModel) (c : collection) :
  ObjectId_of_str id = Some o -> UserModel_validate payload = Some u ->
  let once := PUT_user id payload c in
  let twice := PUT_user id payload (store_after once) in
  reply twice = reply once ∧ store_after twice = store_after once ∧
  trace twice = trace once.
Proof.
  intros Hi Hu. cbv zeta.
  pose proof (PUT_user_run id o payload u c Hi Hu) as R1.
  destruct (storable u) eqn:S.
  2:{ rewrite R1.
      change (store_after (server_error, c, @nil store_op)) with c.
      rewrite R1. repeat split; reflexivity. }
  assert (store_after (PUT_user id payload c)
          = update_first (VOid o) (update_data u) c) as Es
    by (rewrite R1; reflexivity).
  rewrite Es.
  rewrite (PUT_user_run id o payload u (update_first _ _ c) Hi Hu), S, R1.
  unfold reply, store_after, trace. cbn [fst snd].
  rewrite (update_first_idem _ _ _ (update_data_no_id u)).
  split; [|split; reflexivity].
  destruct (List.find (matches (VOid o)) c) as [d|] eqn:F.
  - rewrite (find_update_first _ _ _ d (update_data_no_id u) F). reflexivity.
  - rewrite (update_first_absent _ _ _ F), F. reflexivity.
Qed.

(** X5.  Read your writes: after a PUT with a valid body that the driver
    can encode, on a well-formed identifier, GET on the same identifier
    gives the very answer the PUT gave, the updated record or 404. *)
Theorem get_after_update (id : str) (o : ObjectId) (payload : pydict)
    (u : UserModel) (c : collection) :
  ObjectId_of_str id = Some o -> UserModel_validate payload = Some u ->
  storable u = true ->
  reply (GET_user id (store_after (PUT_user id payload c))) =
  reply (PUT_user id payload c).
Proof.
  intros Hi Hu Hs. rewrite (PUT_user_run id o payload u c Hi Hu), Hs.
  unfold store_after, reply. cbn [fst snd].
  rewrite (GET_user_run id o _ Hi). cbn [fst].
  destruct (List.find (matches (VOid o)) c) as [d|] eqn:F.
  - rewrite (find_update_first _ _ _ d (update_data_no_id u) F).
    apply find_matches in F as [Hd _].
    rewrite (serialize_updated d o payload u Hd Hu). reflexivity.
  - rewrite (update_first_absent _ _ _ F), F. reflexivity.
Qed.

(** X6.  The identifier in a PUT body is ignored: two valid bodies with
    the same name and age get the same answer, store calls and resulting
    collection, whatever identifier either of them carries. *)
Theorem update_ignores_body_id (id : str) (payload payload' : pydict)
    (u u' : UserModel) (c : collection) :
  UserModel_validate payload = Some u -> UserModel_validate payload' = Some u' ->
  payload !! "name" = payload' !! "name" -> payload !! "age" = payload' !! "age" ->
  PUT_user id payload c = PUT_user id payload' c.
Proof.
  intros Hu Hu' Hn Ha.
  destruct (validated_name_age _ _ Hu) as (Hn1 & _ & Ha1).
  destruct (validated_name_age _ _ Hu') as (Hn2 & _ & Ha2).
  assert (um_name u = um_name u') as En by congruence.
  assert (um_age u = um_age u') as Ea.
  { unfold validate_age in Ha1, Ha2. rewrite Ha in Ha1. congruence. }
  clear Hn Ha Hn1 Hn2 Ha1 Ha2.
  assert (update_data u = update_data u') as Ed.
  { rewrite (validated_update_data _ _ Hu), (validated_update_data _ _ Hu').
    rewrite En, Ea. reflexivity. }
  assert (storable u = storable u') as Es.
  { unfold storable. rewrite En, Ea. reflexivity. }
  destruct (ObjectId_of_str id) as [o|] eqn:Hi.
  - rewrite (PUT_user_run id o payload u c Hi Hu).
    rewrite (PUT_user_run id o payload' u' c Hi Hu').
    rewrite Ed, En, Ea, Es. reflexivity.
  - rewrite (PUT_user_invalid id payload u c Hi Hu).
    rewrite (PUT_user_invalid id payload' u' c Hi Hu'). reflexivity.
Qed.

(** X17.  What a PUT writes.  For an existing user: a PUT whose body
    gives the age but no name is refused with 422 and nothing is stored;
    a PUT whose body passes validation and can be encoded by the driver
    answers 200 with the body's name and age under the path identifier,
    and replaces in the matching document exactly the fields name and age
    by the body's values.  Every other field of that document, its
    identifier included, and every other document stay as they were; when
    the body's name is the stored one, only the age changes. *)
Theorem update_merges_validated_fields (id : str) (o : ObjectId)
    (c : collection) (d : pydict) :
  ObjectId_of_str id = Some o -> List.find (matches (VOid o)) c = Some d ->
  (∀ a, PUT_user id {[ "age" := VInt a ]} c = (unprocessable, c, [])) ∧
  (∀ payload u,
     UserModel_validate payload = Some u -> storable u = true ->
     let r := PUT_user id payload c in
     let d' := <["name" := VStr (um_name u)]> (<["age" := VInt (um_age u)]> d) in
     reply r = user_response 200 o (um_name u) (um_age u) ∧
     List.find (matches (VOid o)) (store_after r) = Some d' ∧
     (∀ k, k <> "name" -> k <> "age" -> d' !! k = d !! k) ∧
     (d !! "name" = Some (VStr (um_name u)) -> ∀ k, k <> "age" -> d' !! k = d !! k) ∧
     (∀ q, q <> VOid o ->
           List.find (matches q) (store_after r) = List.find (matches q) c) ∧
     length (store_after r) = length c).
Proof.
  intros Hi Hd. split.
  - intros a. apply PUT_user_rejected, validate_needs_name. left.
    apply lookup_singleton_ne. discriminate.
  - intros payload u Hu Hs. cbv zeta.
    rewrite (PUT_user_run id o payload u c Hi Hu), Hs, Hd.
    unfold reply, store_after. cbn [fst snd].
    split; [reflexivity|]. split.
    { rewrite (find_update_first _ _ _ d (update_data_no_id u) Hd).
      rewrite (validated_update_data _ _ Hu), merged_doc. reflexivity. }
    split; [intros k Hkn Hka; by apply merged_doc_other|].
    split.
    { intros Hname k Hka. destruct (decide (k = "name")) as [->|Hkn].
      - rewrite Hname. apply merged_doc_name.
      - by apply merged_doc_other. }
    split.
    { intros q Hq. apply find_update_first_other;
        [apply update_data_no_id|congruence]. }
    apply length_update_first.
Qed.

(** X18.  The empty update set.  A PUT whose body gives no non-null
    field besides the identifier does not pass validation: it is answered
    422 without any store call.  Inside the handler the write is guarded:
    for a model instance whose update set is empty, [update_user] makes
    no write and does exactly what [get_user] does, one re-fetch answered
    with the stored record or with 404.  No validated body yields such an
    instance. *)
Theorem empty_update_is_refused (id : str) (c : collection) :
  (∀ payload,
     (∀ k, k <> "_id" -> k <> "id" ->
           payload !! k = None ∨ payload !! k = Some VNone) ->
     PUT_user id payload c = (unprocessable, c, [])) ∧
  (∀ u, update_data u = ∅ ->
        update_user id u c = get_user id c ∧
        ∀ o, ObjectId_of_str id = Some o ->
             update_user id u c =
               (match List.find (matches (VOid o)) c with
                | Some d => Ok d
                | None => http_404 id
                end, c, [OpFindOne (VOid o)])) ∧
  (∀ payload u, UserModel_validate payload = Some u -> update_data u <> ∅).
Proof.
  split; [|split].
  - intros payload H. apply PUT_user_rejected, validate_needs_name.
    by apply H.
  - intros u Hu. rewrite (update_user_noop id u c Hu). split; [done|].
    intros o Ho. by apply get_user_run.
  - apply validated_update_nonempty.
Qed.

(** X16.  PUT keeps the identifiers of the collection and their order:
    whatever the path identifier and the body, the sequence of ["_id"]
    values is the same after the request as before. *)
Theorem update_keeps_identifiers (id : str) (payload : pydict) (c : collection) :
  omap (fun d : pydict => d !! "_id") (store_after (PUT_user id payload c)) =
  omap (fun d : pydict => d !! "_id") c.
Proof.
  unfold store_after.
  destruct (PUT_user_cases id payload c)
    as [[_ ->]|[(u & _ & _ & ->)|[(u & o & _ & _ & _ & ->)
       |[(u & o & _ & _ & _ & _ & ->)|(u & o & d & _ & _ & _ & _ & ->)]]]];
    cbn [fst snd]; try reflexivity.
  apply ids_update_first, update_data_no_id.
Qed.

(** ** Create, list and delete together *)

(** X7.  How a request changes the number of stored documents: POST adds
    exactly one document, at the end and behind the existing ones, when
    it answers 201, and none otherwise; DELETE removes exactly one when
    it answers 204, and none otherwise; every other route keeps the
    number. *)
Theorem collection_size (gen : ObjectId) (req : request) (c : collection) :
  let r := serve gen req c in
  match req with
  | ReqCreate _ =>
      take (length c) (store_after r) = c ∧
      length (store_after r) =
        (length c + if decide (status_of (reply r) = 201%Z) then 1 else 0)%nat
  | ReqDelete _ =>
      (length (store_after r) + if decide (status_of (reply r) = 204%Z) then 1 else 0)%nat
      = length c
  | _ => length (store_after r) = length c
  end.
Proof.
  cbv zeta. unfold reply, store_after.
  destruct req as [|payload| |id|id payload|id]; cbn [serve routed fst snd].
  - reflexivity.
  - destruct (POST_users_cases gen payload c)
      as [[_ ->]|[(u & _ & _ & ->)|[(u & d & _ & _ & _ & ->)
         |(u & _ & _ & _ & ->)]]];
      cbn [fst snd status_of status_code user_response unprocessable server_error].
    + rewrite firstn_all. split; [reflexivity|]. rewrite decide_False by lia. lia.
    + rewrite firstn_all. split; [reflexivity|]. rewrite decide_False by lia. lia.
    + rewrite firstn_all. split; [reflexivity|]. rewrite decide_False by lia. lia.
    + rewrite take_app_length. split; [reflexivity|].
      rewrite decide_True by reflexivity. rewrite length_app. reflexivity.
  - rewrite GET_users_run. reflexivity.
  - destruct (GET_user_cases id c)
      as [[_ ->]|[(o & _ & _ & ->)|(o & d & _ & _ & ->)]]; reflexivity.
  - destruct (PUT_user_cases id payload c)
      as [[_ ->]|[(u & _ & _ & ->)|[(u & o & _ & _ & _ & ->)
         |[(u & o & _ & _ & _ & _ & ->)|(u & o & d & _ & _ & _ & _ & ->)]]]];
      cbn [fst snd];
      [reflexivity|reflexivity|reflexivity|reflexivity
      |apply length_update_first].
  - destruct (DELETE_user_cases id c)
      as [[_ ->]|[(o & _ & _ & ->)|(o & d & _ & F & ->)]];
      cbn [fst snd status_of status_code not_found_response server_error].
    + rewrite decide_False by lia. lia.
    + rewrite decide_False by lia. lia.
    + rewrite decide_True by reflexivity.
      rewrite <- (length_delete_first _ _ _ F). lia.
Qed.

(** X8.  List after Create.  When fewer than 1000 documents are stored
    and GET /users/ answers the records [l], a POST that answers 201 with
    a record makes the next GET /users/ answer [l] followed by that
    record. *)
Theorem list_after_create (gen : ObjectId) (payload : pydict) (c : collection)
    (l : list pydict) (j : pydict) :
  (length c < 1000)%nat ->
  reply (GET_users c) = {| status_code := 200; body := JUsers l |} ->
  reply (POST_users gen payload c) = {| status_code := 201; body := JUser j |} ->
  reply (GET_users (store_after (POST_users gen payload c))) =
    {| status_code := 200; body := JUsers (l ++ [j]) |}.
Proof.
  intros Hlen Hl Hp. unfold reply, store_after in *.
  rewrite GET_users_run in Hl. cbn [fst] in Hl.
  rewrite take_ge in Hl by lia.
  destruct (serialize_users c) as [l'|] eqn:El; [|discriminate Hl].
  injection Hl as ->.
  destruct (POST_users_cases gen payload c)
    as [[_ R]|[(u & _ & _ & R)|[(u & d & _ & _ & _ & R)|(u & Hu & _ & _ & R)]]];
    rewrite R in Hp |- *; cbn [fst snd] in Hp |- *;
    [discriminate Hp|discriminate Hp|discriminate Hp|].
  injection Hp as <-. rewrite GET_users_run. cbn [fst].
  rewrite take_ge by (rewrite length_app; simpl; lia).
  assert (serialize_users (c ++ [new_doc gen u]) =
          Some (l ++ [record (VStr (ObjectId_str (default gen (um_id u))))
                        (um_name u) (um_age u)])) as ->; [|reflexivity].
  apply mapM_Some_2. apply Forall2_app; [by apply mapM_Some_1|].
  constructor; [|constructor].
  exact (serialize_new_doc gen payload u Hu).
Qed.

(** X9.  Create, then Delete.  When POST stores a document (the body is
    valid and the driver can encode it, and its identifier, the client's
    or the generated one, is a 12-byte identifier not yet stored), DELETE
    on the returned identifier answers 204 and the collection is again
    what it was before the POST. *)
Theorem create_then_delete_restores (gen : ObjectId) (payload : pydict)
    (u : UserModel) (c : collection) :
  UserModel_validate payload = Some u -> storable u = true ->
  let i := default gen (um_id u) in
  ObjectId_wf i -> List.find (matches (VOid i)) c = None ->
  reply (POST_users gen payload c) = user_response 201 i (um_name u) (um_age u) ∧
  DELETE_user (ObjectId_str i) (store_after (POST_users gen payload c)) =
    ({| status_code := 204; body := JEmpty |}, c, [OpDeleteOne (VOid i)]).
Proof.
  intros Hu Hs i Hwf Hf. subst i.
  rewrite (POST_users_run gen payload u c Hu), Hs, Hf.
  unfold reply, store_after. cbn [fst snd]. split; [reflexivity|].
  rewrite (DELETE_user_run _ _ _ (ObjectId_of_str_str _ Hwf)).
  rewrite (find_app_new _ c _ Hf (new_doc_id gen u)).
  rewrite (delete_first_snoc _ c _ Hf (new_doc_id gen u)). reflexivity.
Qed.


(** ** Store calls and server errors *)

(** X11.  Every request makes at most one writing store call and at most
    one reading store call, the write first; a request answered 422 makes
    none; GET /, GET /users/ and GET /users/{id} never make a writing
    call. *)
Theorem store_calls_bounded (gen : ObjectId) (req : request) (c : collection) :
  let t := trace (serve gen req c) in
  (∃ ws rs, t = ws ++ rs ∧ (length ws <= 1)%nat ∧ (length rs <= 1)%nat ∧
            forallb is_write ws = true ∧ forallb is_read rs = true) ∧
  (status_of (reply (serve gen req c)) = 422 -> t = []) ∧
  match req with
  | ReqRoot | ReqList | ReqGet _ => forallb is_read t = true
  | _ => True
  end.
Proof.
  cbv zeta. unfold trace, reply.
  destruct req as [|payload| |id|id payload|id]; cbn [serve routed fst snd].
  - split; [exists [], []; repeat split; simpl; lia|].
    split; [reflexivity|reflexivity].
  - destruct (POST_users_cases gen payload c)
      as [[_ ->]|[(u & _ & _ & ->)|[(u & d & _ & _ & _ & ->)
         |(u & _ & _ & _ & ->)]]];
      cbn [fst snd status_of status_code user_response server_error].
    + split; [exists [], []; repeat split; simpl; lia|]. split; [reflexivity|exact I].
    + split; [exists [], []; repeat split; simpl; lia|]. split; [reflexivity|exact I].
    + split; [eexists [_], []; repeat split; simpl; lia|].
      split; [discriminate|exact I].
    + split; [eexists [_], [_]; repeat split; simpl; lia|].
      split; [discriminate|exact I].
  - rewrite GET_users_run. cbn [fst snd].
    split; [eexists [], [_]; repeat split; simpl; lia|].
    split; [|reflexivity].
    destruct (serialize_users (take 1000 c)); discriminate.
  - destruct (GET_user_cases id c)
      as [[_ ->]|[(o & _ & _ & ->)|(o & d & _ & _ & ->)]]; cbn [fst snd].
    + split; [exists [], []; repeat split; simpl; lia|].
      split; [reflexivity|reflexivity].
    + split; [eexists [], [_]; repeat split; simpl; lia|].
      split; [discriminate|reflexivity].
    + split; [eexists [], [_]; repeat split; simpl; lia|].
      split; [|reflexivity]. destruct (serialize_user d); discriminate.
  - destruct (PUT_user_cases id payload c)
      as [[_ ->]|[(u & _ & _ & ->)|[(u & o & _ & _ & _ & ->)
         |[(u & o & _ & _ & _ & _ & ->)|(u & o & d & _ & _ & _ & _ & ->)]]]];
      cbn [fst snd status_of status_code user_response server_error].
    + split; [exists [], []; repeat split; simpl; lia|]. split; [reflexivity|exact I].
    + split; [exists [], []; repeat split; simpl; lia|]. split; [reflexivity|exact I].
    + split; [exists [], []; repeat split; simpl; lia|]. split; [reflexivity|exact I].
    + split; [eexists [_], [_]; repeat split; simpl; lia|].
      split; [discriminate|exact I].
    + split; [eexists [_], [_]; repeat split; simpl; lia|].
      split; [discriminate|exact I].
  - destruct (DELETE_user_cases id c)
      as [[_ ->]|[(o & _ & _ & ->)|(o & d & _ & _ & ->)]];
      cbn [fst snd status_of status_code server_error].
    + split; [exists [], []; repeat split; simpl; lia|]. split; [reflexivity|exact I].
    + split; [eexists [_], []; repeat split; simpl; lia|].
      split; [discriminate|exact I].
    + split; [eexists [_], []; repeat split; simpl; lia|].
      split; [discriminate|exact I].
Qed.


(** ** Identifiers and names at the boundary *)

(** X13.  The identifier a response shows addresses the same document.
    For a path identifier of 24 hexadecimal characters, the string form
    of the 12-byte identifier it denotes is 24 characters long, is itself
    in the store's format and denotes the same identifier; GET with it
    finds the same document with the same answer, and DELETE with it
    removes the same document. *)
Theorem returned_id_addresses_document (id : str) (o : ObjectId) (c : collection) :
  ObjectId_of_str id = Some o -> ObjectId_wf o ->
  length (ObjectId_str o) = 24%nat ∧
  ObjectId_of_str (ObjectId_str o) = Some o ∧
  (∀ d, List.find (matches (VOid o)) c = Some d ->
        GET_user (ObjectId_str o) c = GET_user id c) ∧
  store_after (DELETE_user (ObjectId_str o) c) = store_after (DELETE_user id c).
Proof.
  intros Hi Hwf.
  pose proof (ObjectId_of_str_str o Hwf) as Hs.
  split; [unfold ObjectId_str; rewrite length_hexlify, (proj1 Hwf); reflexivity|].
  split; [exact Hs|]. split.
  - intros d Hd. rewrite (GET_user_run _ o c Hs), (GET_user_run id o c Hi), Hd.
    reflexivity.
  - rewrite (DELETE_user_run _ o c Hs), (DELETE_user_run id o c Hi). reflexivity.
Qed.

(** X14.  Which names the validator accepts.  A name is accepted exactly
    when at least one of its characters is not whitespace, and refused
    exactly when all of them are (the empty name included); an accepted
    name is returned as it was given. *)
Theorem name_accepted_iff (v : str) :
  (name_must_not_be_empty v = Some v <-> Exists (fun ch => isspace ch = false) v) ∧
  (name_must_not_be_empty v = None <-> Forall (fun ch => isspace ch = true) v) ∧
  (∀ w, name_must_not_be_empty v = Some w -> w = v).
Proof.
  rewrite name_must_not_be_empty_spec, <- blank_Forall.
  assert (blank v = false <-> Exists (fun ch => isspace ch = false) v) as Hx.
  { unfold blank. induction v as [|ch v IH]; simpl.
    - split; [discriminate|]. intros H. inversion H.
    - rewrite Exists_cons. destruct (isspace ch); simpl.
      + rewrite IH. split; [by right|]. intros [H|H]; [discriminate H|exact H].
      + split; [by left|reflexivity]. }
  rewrite <- Hx. clear Hx. destruct (blank v).
  - split; [split; discriminate|]. split; [split; reflexivity|discriminate].
  - split; [split; reflexivity|]. split; [split; discriminate|].
    intros w [= <-]. reflexivity.
Qed.

(** X15.  A malformed identifier in the body.  When the body gives, under
    ["_id"] or ["id"], a value that is not null and that [PyObjectId]
    refuses (any integer, any string that is not in the store's format),
    POST /users/ and PUT /users/{id} answer 422 without any store call,
    whatever the path identifier and the rest of the body. *)
Theorem malformed_body_id_rejected (gen : ObjectId) (id : str) (payload : pydict)
    (v : value) (c : collection) :
  input_id payload = Some v ->
  (∃ z, v = VInt z) ∨ (∃ s, v = VStr s ∧ ObjectId_of_str s = None) ->
  PyObjectId_validate v = None ∧
  POST_users gen payload c = (unprocessable, c, []) ∧
  PUT_user id payload c = (unprocessable, c, []).
Proof.
  intros Hi Hv.
  assert (PyObjectId_validate v = None ∧ v <> VNone) as [Hp Hn].
  { destruct Hv as [[z ->]|(s & -> & Hs)]; [split; [reflexivity|discriminate]|].
    split; [|discriminate].
    unfold PyObjectId_validate, ObjectId_is_valid. rewrite Hs.
    rewrite bool_decide_eq_false_2; [reflexivity|]. intros [x Hx]. discriminate Hx. }
  assert (UserModel_validate payload = None) as Hu.
  { unfold UserModel_validate, validate_id. rewrite Hi.
    destruct v; try (exfalso; apply Hn; reflexivity); rewrite Hp; reflexivity. }
  split; [exact Hp|]. split.
  - exact (POST_users_rejected gen payload c Hu).
  - exact (PUT_user_rejected id payload c Hu).
Qed.

End Service.

(** * The service at work *)

(** The statements below run the routes on sample requests, with
    [decimal_lax] as the conversion of strings to integers. *)
#[global] Existing Instance decimal_lax.

(** ** Claims that fail on the code *)

(** C1.  A PUT whose body gives only the age.  On a collection that holds
    Ada, PUT /users/{id} with the body [{"age": 31}] is answered 422:
    [UserModel] requires the name.  There is no store call and the stored
    age is still 30, where the claim has the request succeed and change
    the age. *)
Lemma age_only_update_refused :
  ObjectId_of_str ada_id = Some ada_oid ∧
  List.find (matches (VOid ada_oid)) [ada_doc] = Some ada_doc ∧
  PUT_user ada_id {[ "age" := VInt 31 ]} [ada_doc] = (unprocessable, [ada_doc], []) ∧
  status_code unprocessable <> 200 ∧
  ada_doc !! "age" = Some (VInt 30).
Proof. repeat split; vm_compute; congruence. Qed.

(** C6.  A PUT whose update set is empty.  On a collection that holds
    Ada, PUT /users/{id} with a body that gives no field at all is
    answered 422, with no store call: the guarded branch of [update_user]
    that would skip the write and re-fetch the record is never reached,
    where the claim has the request answered 200 with the stored
    record. *)
Lemma empty_update_refused :
  List.find (matches (VOid ada_oid)) [ada_doc] = Some ada_doc ∧
  (∀ k, (∅ : pydict) !! k = None) ∧
  PUT_user ada_id ∅ [ada_doc] = (unprocessable, [ada_doc], []) ∧
  status_code unprocessable <> 200 ∧
  OpFindOne (VOid ada_oid) ∉ trace (unprocessable, [ada_doc], []).
Proof.
  split. { vm_compute; reflexivity. }
  split. { intros k; apply lookup_empty. }
  split. { vm_compute; reflexivity. }
  split. { vm_compute; congruence. }
  apply not_elem_of_nil.
Qed.

(** C2, as stated, fails: GET /users/not-an-id is answered 500, which is
    not a 4xx status. *)
Lemma malformed_id_is_server_error :
  ObjectId_of_str (lit "not-an-id") = None ∧
  GET_user (lit "not-an-id") [ada_doc] = (server_error, [ada_doc], []) ∧
  ¬ (400 <= status_code server_error < 500).
Proof.
  split; [reflexivity|]. split; [reflexivity|]. simpl. lia.
Qed.

(** C3, as stated, fails: a POST whose name is "Ada" and whose age is the
    integer 2^63 passes validation, but the driver cannot encode the age;
    the answer is 500, nothing is sent to the store and nothing is
    stored. *)
Lemma create_refused_beyond_int64 :
  ada_too_old !! "name" = Some (VStr (lit "Ada")) ∧ strip (lit "Ada") <> [] ∧
  ada_too_old !! "age" = Some (VInt (2 ^ 63)) ∧ input_id ada_too_old = None ∧
  ObjectId_wf ada_oid ∧
  POST_users ada_oid ada_too_old [] = (server_error, [], []) ∧
  status_code server_error <> 201.
Proof.
  split. { vm_compute; reflexivity. }
  split. { vm_compute; discriminate. }
  split. { vm_compute; reflexivity. }
  split. { vm_compute; reflexivity. }
  split. { split; [reflexivity|repeat constructor]. }
  split. { vm_compute; reflexivity. }
  vm_compute; discriminate.
Qed.


(** C10, as stated, fails: a lone surrogate between two spaces is a name
    with whitespace around non-whitespace content; the validator accepts
    it and returns it unchanged, but the driver cannot encode it: the
    POST is answered 500 and the name is not persisted. *)
Lemma surrogate_name_not_persisted :
  strip padded_surrogate <> [] ∧
  name_must_not_be_empty padded_surrogate = Some padded_surrogate ∧
  POST_users ada_oid {[ "name" := VStr padded_surrogate; "age" := VInt 30 ]} []
    = (server_error, [], []).
Proof.
  split. { vm_compute; discriminate. }
  split. { vm_compute; reflexivity. }
  vm_compute; reflexivity.
Qed.

(** ** The theorems at sample inputs *)

Lemma create_then_get_witness :
  ada !! "name" = Some (VStr (lit "Ada")) ∧ strip (lit "Ada") <> [] ∧
  ada !! "age" = Some (VInt 30) ∧
  (input_id ada = None ∨ input_id ada = Some VNone) ∧
  ObjectId_wf ada_oid ∧ List.find (matches (VOid ada_oid)) [] = None ∧
  reply (POST_users ada_oid ada []) = user_response 201 ada_oid (lit "Ada") 30 ∧
  reply (GET_user ada_id [ada_doc]) = user_response 200 ada_oid (lit "Ada") 30.
Proof.
  assert (ada !! "name" = Some (VStr (lit "Ada"))) as H1 by (vm_compute; reflexivity).
  assert (strip (lit "Ada") <> []) as H2 by (vm_compute; discriminate).
  assert (ada !! "age" = Some (VInt 30)) as H3 by (vm_compute; reflexivity).
  assert (input_id ada = None ∨ input_id ada = Some VNone) as H4
    by (left; vm_compute; reflexivity).
  assert (ObjectId_wf ada_oid) as H5 by (split; [reflexivity|repeat constructor]).
  assert (List.find (matches (VOid ada_oid)) [] = None) as H6 by reflexivity.
  repeat (split; [assumption|]).
  destruct (create_then_get ada_oid ada (lit "Ada") 30 [] H1 H2 H3
              eq_refl eq_refl H4 H5 H6) as (Hp & _ & _ & _ & Hg).
  split; [exact Hp|exact Hg].
Defined.

Lemma create_blank_name_rejected_witness :
  (POST_users ada_oid {[ "name" := VStr (lit ""); "age" := VInt 30 ]} [ada_doc]
   = (unprocessable, [ada_doc], [])) ∧
  (POST_users ada_oid {[ "name" := VStr (lit "   "); "age" := VInt 30 ]} [ada_doc]
   = (unprocessable, [ada_doc], [])).
Proof.
  split.
  - apply (create_blank_name_rejected ada_oid _ (lit "") [ada_doc]);
      [reflexivity|]. apply Forall_nil_2.
  - apply (create_blank_name_rejected ada_oid _ (lit "   ") [ada_doc]);
      [reflexivity|]. by repeat constructor.
Defined.


Lemma list_users_capped_witness :
  Forall user_document [ada_doc] ∧
  ∃ l, GET_users [ada_doc] =
         ({| status_code := 200; body := JUsers l |}, [ada_doc], [OpFind]) ∧
       length l = 1%nat.
Proof.
  assert (Forall user_document [ada_doc]) as H.
  { apply Forall_singleton. vm_compute. eauto. }
  split; [exact H|].
  destruct (list_users_capped [ada_doc] H) as (l & Hl & _ & _ & _ & Hn).
  exists l. split; [exact Hl|]. by destruct Hn as [_ ->]; [simpl; lia|].
Defined.

Lemma put_sets_name_and_age_witness :
  let u := {| um_id := None; um_name := lit "Ada"; um_age := 30;
              um_fields_set := ∅ ∪ {["name"; "age"]} |} in
  UserModel_validate ada = Some u ∧
  update_data u = ada ∧ update_data u <> ∅.
Proof.
  cbv zeta.
  assert (UserModel_validate ada = Some
            {| um_id := None; um_name := lit "Ada"; um_age := 30;
               um_fields_set := ∅ ∪ {["name"; "age"]} |}) as H by (vm_compute; reflexivity).
  split; [exact H|].
  destruct (put_sets_name_and_age ada _ H) as (_ & _ & Hd & Hne & _).
  split; [exact Hd|exact Hne].
Defined.

Lemma name_kept_verbatim_witness :
  strip (lit "  Ada  ") <> [] ∧
  name_must_not_be_empty (lit "  Ada  ") = Some (lit "  Ada  ") ∧
  store_after
    (POST_users ada_oid {[ "name" := VStr (lit "  Ada  "); "age" := VInt 30 ]} [])
  = [record (VOid ada_oid) (lit "  Ada  ") 30].
Proof.
  assert (strip (lit "  Ada  ") <> []) as H by (vm_compute; discriminate).
  split; [exact H|].
  destruct (name_kept_verbatim (lit "  Ada  ")) as [_ Hk].
  destruct (Hk H) as [Hv Hp]. split; [exact Hv|].
  destruct (Hp ada_oid {[ "name" := VStr (lit "  Ada  "); "age" := VInt 30 ]} 30 [])
    as [_ Hs]; [vm_compute; reflexivity|vm_compute; reflexivity|reflexivity
               |reflexivity|left; vm_compute; reflexivity|reflexivity|].
  exact Hs.
Defined.

Lemma malformed_id_no_store_access_witness :
  ObjectId_of_str (lit "not-an-id") = None ∧
  GET_user (lit "not-an-id") [ada_doc] = (server_error, [ada_doc], []) ∧
  DELETE_user (lit "not-an-id") [ada_doc] = (server_error, [ada_doc], []).
Proof.
  assert (ObjectId_of_str (lit "not-an-id") = None) as H by (vm_compute; reflexivity).
  split; [exact H|].
  destruct (malformed_id_no_store_access (lit "not-an-id") [ada_doc] H)
    as (_ & Hg & Hd & _).
  split; [exact Hg|exact Hd].
Defined.


Lemma failed_request_changes_nothing_witness :
  400 <= status_of (reply (serve bob_oid (ReqCreate bob_with_ada_id) [ada_doc])) ∧
  store_after (serve bob_oid (ReqCreate bob_with_ada_id) [ada_doc]) = [ada_doc].
Proof.
  assert (400 <= status_of (reply (serve bob_oid (ReqCreate bob_with_ada_id) [ada_doc])))
    as H by (vm_compute; discriminate).
  split; [exact H|].
  exact (failed_request_changes_nothing bob_oid (ReqCreate bob_with_ada_id) [ada_doc] H).
Defined.

Lemma serve_all_store_ok_witness :
  store_ok [] ∧
  store_ok (serve_all [(ada_oid, ReqCreate ada); (bob_oid, ReqCreate bob_with_ada_id);
                       (bob_oid, ReqUpdate ada_id ada); (bob_oid, ReqDelete ada_id)] []).
Proof.
  split; [exact store_ok_nil|].
  exact (serve_all_store_ok _ [] store_ok_nil).
Defined.


Lemma update_idempotent_witness :
  let payload : pydict := {[ "name" := VStr (lit "Ada"); "age" := VInt 31 ]} in
  ObjectId_of_str ada_id = Some ada_oid ∧
  store_after (PUT_user ada_id payload (store_after (PUT_user ada_id payload [ada_doc])))
  = store_after (PUT_user ada_id payload [ada_doc]).
Proof.
  cbv zeta.
  assert (ObjectId_of_str ada_id = Some ada_oid) as H1 by (vm_compute; reflexivity).
  assert (UserModel_validate {[ "name" := VStr (lit "Ada"); "age" := VInt 31 ]}
          = Some {| um_id := None; um_name := lit "Ada"; um_age := 31;
                    um_fields_set := ∅ ∪ {["name"; "age"]} |}) as H2
    by (vm_compute; reflexivity).
  split; [exact H1|].
  destruct (update_idempotent ada_id ada_oid _ _ [ada_doc] H1 H2) as (_ & Hs & _).
  exact Hs.
Defined.

Lemma get_after_update_witness :
  let payload : pydict := {[ "name" := VStr (lit "Ada"); "age" := VInt 31 ]} in
  ObjectId_of_str ada_id = Some ada_oid ∧
  reply (GET_user ada_id (store_after (PUT_user ada_id payload [ada_doc]))) =
  reply (PUT_user ada_id payload [ada_doc]).
Proof.
  cbv zeta.
  assert (ObjectId_of_str ada_id = Some ada_oid) as H1 by (vm_compute; reflexivity).
  assert (UserModel_validate {[ "name" := VStr (lit "Ada"); "age" := VInt 31 ]}
          = Some {| um_id := None; um_name := lit "Ada"; um_age := 31;
                    um_fields_set := ∅ ∪ {["name"; "age"]} |}) as H2
    by (vm_compute; reflexivity).
  split; [exact H1|].
  exact (get_after_update ada_id ada_oid _ _ [ada_doc] H1 H2 eq_refl).
Defined.

Lemma update_ignores_body_id_witness :
  PUT_user ada_id (<["_id" := VStr ada_id]> ada) [ada_doc] =
  PUT_user ada_id ada [ada_doc].
Proof.
  assert (UserModel_validate (<["_id" := VStr ada_id]> ada)
          = Some {| um_id := Some ada_oid; um_name := lit "Ada"; um_age := 30;
                    um_fields_set := {["id"]} ∪ {["name"; "age"]} |}) as H1
    by (vm_compute; reflexivity).
  assert (UserModel_validate ada
          = Some {| um_id := None; um_name := lit "Ada"; um_age := 30;
                    um_fields_set := ∅ ∪ {["name"; "age"]} |}) as H2
    by (vm_compute; reflexivity).
  apply (update_ignores_body_id ada_id _ _ _ _ [ada_doc] H1 H2);
    vm_compute; reflexivity.
Defined.

Lemma update_merges_validated_fields_witness :
  ObjectId_of_str ada_id = Some ada_oid ∧
  List.find (matches (VOid ada_oid)) [ada_doc] = Some ada_doc ∧
  PUT_user ada_id {[ "age" := VInt 31 ]} [ada_doc] = (unprocessable, [ada_doc], []) ∧
  reply (PUT_user ada_id {[ "name" := VStr (lit "Ada"); "age" := VInt 31 ]} [ada_doc])
    = user_response 200 ada_oid (lit "Ada") 31.
Proof.
  assert (ObjectId_of_str ada_id = Some ada_oid) as H1 by (vm_compute; reflexivity).
  assert (List.find (matches (VOid ada_oid)) [ada_doc] = Some ada_doc) as H2
    by (vm_compute; reflexivity).
  split; [exact H1|]. split; [exact H2|].
  destruct (update_merges_validated_fields ada_id ada_oid [ada_doc] ada_doc H1 H2)
    as [Ha Hb].
  split; [exact (Ha 31)|].
  assert (UserModel_validate {[ "name" := VStr (lit "Ada"); "age" := VInt 31 ]}
          = Some {| um_id := None; um_name := lit "Ada"; um_age := 31;
                    um_fields_set := ∅ ∪ {["name"; "age"]} |}) as H3
    by (vm_compute; reflexivity).
  destruct (Hb _ _ H3 eq_refl) as [Hr _]. exact Hr.
Defined.

Lemma empty_update_is_refused_witness :
  let u := {| um_id := None; um_name := lit "Ada"; um_age := 30;
              um_fields_set := ∅ |} in
  PUT_user ada_id {[ "_id" := VNone ]} [ada_doc] = (unprocessable, [ada_doc], []) ∧
  update_data u = ∅ ∧
  update_user ada_id u [ada_doc] = (Ok ada_doc, [ada_doc], [OpFindOne (VOid ada_oid)]).
Proof.
  cbv zeta.
  destruct (empty_update_is_refused ada_id [ada_doc]) as (H1 & H2 & _).
  split.
  - apply H1. intros k Hk _. left. by rewrite lookup_singleton_ne.
  - assert (update_data {| um_id := None; um_name := lit "Ada"; um_age := 30;
                           um_fields_set := ∅ |} = ∅) as He
      by (vm_compute; reflexivity).
    split; [exact He|].
    destruct (H2 _ He) as [_ Hr].
    assert (ObjectId_of_str ada_id = Some ada_oid) as Hi
      by (vm_compute; reflexivity).
    exact (Hr ada_oid Hi).
Defined.

Lemma list_after_create_witness :
  (length (@nil pydict) < 1000)%nat ∧
  reply (GET_users (store_after (POST_users ada_oid ada []))) =
    {| status_code := 200;
       body := JUsers ([] ++ [record (VStr (ObjectId_str ada_oid)) (lit "Ada") 30]) |}.
Proof.
  assert (length (@nil pydict) < 1000)%nat as H1 by (simpl; lia).
  split; [exact H1|].
  apply (list_after_create ada_oid ada [] [] _ H1); vm_compute; reflexivity.
Defined.

Lemma create_then_delete_restores_witness :
  ObjectId_wf ada_oid ∧
  DELETE_user ada_id (store_after (POST_users ada_oid ada [])) =
    ({| status_code := 204; body := JEmpty |}, [], [OpDeleteOne (VOid ada_oid)]).
Proof.
  assert (UserModel_validate ada
          = Some {| um_id := None; um_name := lit "Ada"; um_age := 30;
                    um_fields_set := ∅ ∪ {["name"; "age"]} |}) as H1
    by (vm_compute; reflexivity).
  assert (ObjectId_wf ada_oid) as H2 by (split; [reflexivity|repeat constructor]).
  split; [exact H2|].
  destruct (create_then_delete_restores ada_oid ada _ [] H1 eq_refl H2 eq_refl)
    as [_ H].
  exact H.
Defined.


Lemma store_calls_bounded_witness :
  status_of (reply (serve bob_oid (ReqUpdate ada_id ∅) [ada_doc])) = 422 ∧
  trace (serve bob_oid (ReqUpdate ada_id ∅) [ada_doc]) = [].
Proof.
  assert (status_of (reply (serve bob_oid (ReqUpdate ada_id ∅) [ada_doc])) = 422)
    as H by (vm_compute; reflexivity).
  split; [exact H|].
  destruct (store_calls_bounded bob_oid (ReqUpdate ada_id ∅) [ada_doc]) as (_ & Ht & _).
  exact (Ht H).
Defined.


Lemma returned_id_addresses_document_witness :
  ObjectId_of_str (lit "507F1F77BCF86CD799439011") = Some ada_oid ∧
  ObjectId_wf ada_oid ∧
  ObjectId_str ada_oid = ada_id ∧
  GET_user ada_id [ada_doc] = GET_user (lit "507F1F77BCF86CD799439011") [ada_doc].
Proof.
  assert (ObjectId_of_str (lit "507F1F77BCF86CD799439011") = Some ada_oid) as H
    by (vm_compute; reflexivity).
  assert (ObjectId_wf ada_oid) as Hwf by (split; [reflexivity|repeat constructor]).
  split; [exact H|]. split; [exact Hwf|]. split; [vm_compute; reflexivity|].
  destruct (returned_id_addresses_document _ ada_oid [ada_doc] H Hwf)
    as (_ & _ & Hg & _).
  apply (Hg ada_doc). vm_compute; reflexivity.
Defined.

Lemma name_accepted_iff_witness :
  Exists (fun ch => isspace ch = false) (lit " A ") ∧
  name_must_not_be_empty (lit " A ") = Some (lit " A ").
Proof.
  assert (Exists (fun ch => isspace ch = false) (lit " A ")) as H.
  { apply Exists_cons_tl, Exists_cons_hd. reflexivity. }
  split; [exact H|].
  destruct (name_accepted_iff (lit " A ")) as [[_ Hn] _]. exact (Hn H).
Defined.

Lemma malformed_body_id_rejected_witness :
  let payload : pydict := <["_id" := VStr (lit "not-an-id")]> ada in
  input_id payload = Some (VStr (lit "not-an-id")) ∧
  POST_users bob_oid payload [] = (unprocessable, [], []) ∧
  PUT_user ada_id payload [ada_doc] = (unprocessable, [ada_doc], []).
Proof.
  cbv zeta.
  assert (input_id (<["_id" := VStr (lit "not-an-id")]> ada)
          = Some (VStr (lit "not-an-id"))) as H1 by (vm_compute; reflexivity).
  assert ((∃ z, VStr (lit "not-an-id") = VInt z) ∨
          (∃ s, VStr (lit "not-an-id") = VStr s ∧ ObjectId_of_str s = None)) as H2.
  { right. exists (lit "not-an-id"). split; reflexivity. }
  split; [exact H1|]. split.
  - exact (proj1 (proj2 (malformed_body_id_rejected bob_oid ada_id _ _ [] H1 H2))).
  - exact (proj2 (proj2 (malformed_body_id_rejected bob_oid ada_id _ _ [ada_doc] H1 H2))).
Defined.

